(** * vibecoding_coach: the three-coach prompt pipeline

    A shallow embedding of [vibecoding_coach.py]: the three stage runners
    ([ConceptCoach.explain], [PromptEngineeringCoach.design],
    [ImplementationCoach.implement]), the coordinator
    [VibeCodingTeam.get_coding_advice], the code-block extraction done in
    [main] and [get_file_extension].

    Python [str] values are byte strings here (the UTF-8 encoding of the
    text); concatenation and the substring relation are the same on both
    readings.  An exception is represented by its text, [str(e)], and
    stands for an instance of [Exception], which is what every handler of
    the program catches. *)

From Stdlib Require Import String Ascii List Bool Arith Lia.
Import ListNotations.
Open Scope list_scope.
Open Scope string_scope.

(** ** Text *)

Module Text.

(** [needle in hay] of Python. *)
Definition contains (needle hay : string) : Prop :=
  exists before after, hay = before ++ needle ++ after.

(** [hay.startswith(p)]. *)
Definition starts_with (p hay : string) : Prop :=
  exists after, hay = p ++ after.

(** [sep.join(parts)]. *)
Fixpoint join (sep : string) (parts : list string) : string :=
  match parts with
  | [] => ""
  | [p] => p
  | p :: rest => p ++ sep ++ join sep rest
  end.

Definition newline : ascii := "010"%char.
Definition nl : string := String newline "".

Definition is_ascii (c : ascii) : bool := Nat.ltb (nat_of_ascii c) 128.

Fixpoint all_chars (p : ascii -> bool) (s : string) : bool :=
  match s with
  | "" => true
  | String c s' => p c && all_chars p s'
  end.

End Text.

(** ** Dictionaries

    A Python [dict] with string keys and values, as the list of its items
    in insertion order ([str(d)] prints them in that order). *)

Definition dict := list (string * string).

(** [d.get(key, default)]. *)
Fixpoint get (d : dict) (key default : string) : string :=
  match d with
  | [] => default
  | (k, v) :: d' => if k =? key then v else get d' key default
  end.

Definition keys (d : dict) : list string := map fst d.

(** ** Outcomes and the world

    A call either returns or raises; what the program reads and writes
    outside its own variables is the [world]. *)

Inductive outcome (A : Type) : Type :=
| Return (a : A)
| Raise (msg : string).
Arguments Return {A} a.
Arguments Raise {A} msg.

(** What the page shows: [st.markdown], entering [st.spinner], [st.error]. *)
Inductive ui_event : Type :=
| Markdown (body : string)
| Spinner (body : string)
| Error (body : string).

(** One element of [workflow_log["steps"]]; the key ["error"] is only
    present in the records of the exception handlers. *)
Record step : Type := {
  coach : string;
  action : string;
  status : string;
  error : option string
}.

(** The dictionary [workflow_log] of [get_coding_advice]. *)
Record workflow_log : Type := {
  service_type : string;
  timestamp : string;
  coaches_involved : list string;
  steps : list step
}.

Record world : Type := {
  sent : list string;          (* prompts passed to generate_content, oldest first *)
  screen : list ui_event;      (* what streamlit has displayed, oldest first *)
  workflow_logs : list workflow_log   (* self.workflow_logs *)
}.

(** The object returned by [generate_content]: its property [text]
    raises (no valid candidate), is [None], or is a string.  A stage
    reads the property in its test and again in its [return]; both
    readings give the same result. *)
Record response : Type := {
  text : outcome (option string)
}.

(** Everything the program calls but does not define. *)
Record env : Type := {
  (* repr() of a str, used by str(input_data) *)
  repr : string -> string;
  (* str.lower() *)
  lower : string -> string;
  (* self.model.generate_content(prompt), given the prompts received
     before; the result is an object, a falsy value such as None, or an
     exception *)
  generate_content : list string -> string -> outcome (option response);
  (* datetime.now().strftime("%Y-%m-%d %H:%M:%S") *)
  now : outcome string;
  (* whether a call of st.markdown or st.spinner raises *)
  st_fault : ui_event -> option string
}.

Definition M (A : Type) : Type := world -> outcome A * world.

Definition ret {A} (a : A) : M A := fun w => (Return a, w).

Definition bind {A B} (m : M A) (f : A -> M B) : M B :=
  fun w =>
    match m w with
    | (Return a, w') => f a w'
    | (Raise msg, w') => (Raise msg, w')
    end.

(** [try: m  except Exception as e: handler(str(e))]. *)
Definition try_except {A} (m : M A) (handler : string -> M A) : M A :=
  fun w =>
    match m w with
    | (Return a, w') => (Return a, w')
    | (Raise msg, w') => handler msg w'
    end.

Declare Scope monad_scope.
Delimit Scope monad_scope with monad.
Notation "x <- m ;; k" := (bind m (fun x => k))
  (at level 61, m at next level, right associativity) : monad_scope.
Notation "' pat <- m ;; k" := (bind m (fun x => match x with pat => k end))
  (at level 61, pat pattern, m at next level, right associativity) : monad_scope.
Notation "m ;; k" := (bind m (fun _ => k))
  (at level 61, right associativity) : monad_scope.

Definition record_prompt (prompt : string) (w : world) : world :=
  {| sent := (sent w ++ [prompt])%list;
     screen := screen w;
     workflow_logs := workflow_logs w |}.

Definition display (ev : ui_event) (w : world) : world :=
  {| sent := sent w;
     screen := (screen w ++ [ev])%list;
     workflow_logs := workflow_logs w |}.

Definition store_log (l : workflow_log) (w : world) : world :=
  {| sent := sent w;
     screen := screen w;
     workflow_logs := (workflow_logs w ++ [l])%list |}.

(** [self.model.generate_content(prompt)]. *)
Definition model_generate_content (E : env) (prompt : string)
  : M (option response) :=
  fun w => (generate_content E (sent w) prompt, record_prompt prompt w).

(** [response.text]. *)
Definition response_text (r : response) : M (option string) :=
  fun w => (text r, w).

(** [datetime.now().strftime(...)]. *)
Definition datetime_now (E : env) : M string :=
  fun w => (now E, w).

(** [st.markdown(body)]. *)
Definition st_markdown (E : env) (body : string) : M unit :=
  fun w =>
    match st_fault E (Markdown body) with
    | Some msg => (Raise msg, w)
    | None => (Return tt, display (Markdown body) w)
    end.

(** [with st.spinner(body): block]. *)
Definition st_spinner {A} (E : env) (body : string) (block : M A) : M A :=
  fun w =>
    match st_fault E (Spinner body) with
    | Some msg => (Raise msg, w)
    | None => block (display (Spinner body) w)
    end.

(** [st.error(body)]: the banner through which the handlers report; it
    is taken to return. *)
Definition st_error (body : string) : M unit :=
  fun w => (Return tt, display (Error body) w).

(** [self.workflow_logs.append(l)]. *)
Definition workflow_logs_append (l : workflow_log) : M unit :=
  fun w => (Return tt, store_log l w).

(** [workflow_log["steps"].append(s)]. *)
Definition steps_append (l : workflow_log) (s : step) : workflow_log :=
  {| service_type := service_type l;
     timestamp := timestamp l;
     coaches_involved := coaches_involved l;
     steps := (steps l ++ [s])%list |}.

(** [str(d)] for a dict of strings. *)
Definition str_dict (E : env) (d : dict) : string :=
  "{" ++ Text.join ", " (map (fun kv => repr E (fst kv) ++ ": " ++ repr E (snd kv)) d) ++ "}".

(** Truth value of [response.text]: [None] and the empty string are
    falsy. *)
Definition truthy (t : option string) : bool :=
  match t with
  | None => false
  | Some s => negb (s =? "")
  end.

Definition str_of (t : option string) : string :=
  match t with
  | None => ""
  | Some s => s
  end.

Open Scope monad_scope.

(** ** ConceptCoach *)

Module ConceptCoach.

Definition coach_name : string := "김민준 개념 코치".

Definition coach_intro : string :=
  "
        안녕하세요, 김민준 바이브 코딩 개념 코치입니다. 
        저는 바이브 코딩의 핵심 개념과 원리를 이해하기 쉽게 설명합니다.
        바이브 코딩은 2025년 2월 안드레이 카파시가 소개한 혁신적인 프로그래밍 방식으로, 
        AI를 활용해 자연어로 기능을 설명하면 코드를 자동으로 생성하는 기술입니다.
        AI와 코딩의 결합에 대한 깊은 이해를 바탕으로 여러분이 자연어로 코드를 생성하는 방식을 이해할 수 있도록 돕겠습니다.
        ".

Definition _create_concept_prompt (input_data : dict) : string :=
  "
        다음 바이브 코딩 관련 질문에 대해 기초적인 설명을 제공해주세요:
        
        "
  ++ get input_data "question" ""
  ++ "
        
        다음 항목을 포함하는 기초 설명을 제공해주세요:
        1. 바이브 코딩의 정의와 핵심 원리
        2. 기존 코딩 방식과 바이브 코딩의 차이점
        3. 바이브 코딩의 작동 방식 (자연어 처리, 코드 생성 과정)
        4. 바이브 코딩의 장단점과 적합한 활용 사례
        5. 효과적인 바이브 코딩을 위한 기본 요소
        ".

Definition _create_project_concept_prompt (input_data : dict) : string :=
  "
        다음 프로젝트에 바이브 코딩을 적용하기 위한 개념적 접근법을 설명해주세요:
        
        프로젝트 설명:
        "
  ++ get input_data "project_description" ""
  ++ "
        
        기술 스택:
        "
  ++ get input_data "tech_stack" ""
  ++ "
        
        다음 항목을 포함하는 개념 설명을 제공해주세요:
        1. 프로젝트에 바이브 코딩을 적용할 수 있는 영역 식별
        2. 바이브 코딩이 이 프로젝트에 가져올 수 있는 이점
        3. 고려해야 할 기술적 제약 및 한계
        4. 프로젝트 구현을 위한 바이브 코딩 접근 방식
        5. 바이브 코딩과 기존 개발 방식의 효과적인 조합 방법
        ".

Definition _create_code_concept_prompt (input_data : dict) : string :=
  "
        다음 코드 생성 요청에 대한 바이브 코딩 개념적 분석을 제공해주세요:
        
        코드 요청:
        "
  ++ get input_data "code_request" ""
  ++ "
        
        프로그래밍 언어:
        "
  ++ get input_data "programming_language" ""
  ++ "
        
        다음 항목을 포함한 개념 분석을 제공해주세요:
        
        1. 요청 분석
           - 핵심 기능 요구사항 식별
           - 필요한 코드 컴포넌트 및 구조
           - 잠재적 복잡성 및 고려사항
        
        2. 바이브 코딩 적용 방식
           - 자연어 요청을 코드 구조로 변환하는 과정
           - 코드 생성을 위한 개념적 모델
           - 요청의 모호성 처리 방법
        
        3. 생성될 코드의 구조적 이해
           - 예상되는 핵심 알고리즘 및 패턴
           - 데이터 흐름 및 상호작용
           - 코드 최적화 고려사항
        ".

Definition _create_learning_concept_prompt (input_data : dict) : string :=
  "
        바이브 코딩 학습을 위한 개념적 기초와 접근법을 설명해주세요:
        
        현재 지식 수준:
        "
  ++ get input_data "current_level" ""
  ++ "
        
        학습 목표:
        "
  ++ get input_data "learning_goals" ""
  ++ "
        
        다음 항목을 포함한 학습 개념 설명을 제공해주세요:
        
        1. 바이브 코딩 학습의 기초 개념
           - 핵심 지식 영역 및 기본 원리
           - 자연어와 코드 간의 연결 이해
           - 효과적인 프롬프트 작성의 개념적 기초
        
        2. 학습 단계별 개념적 접근
           - 입문자를 위한 핵심 개념
           - 중급 학습자를 위한 심화 원리
           - 고급 실무 적용을 위한 개념적 프레임워크
        
        3. 바이브 코딩 역량 개발 개념
           - 효과적인 자연어 프롬프트 작성 원리
           - 코드 결과 이해 및 평가 방법
           - 바이브 코딩과 기존 코딩 지식의 연계
        ".

Definition _create_general_concept_prompt
  (E : env) (input_data : dict) (service_type : string) : string :=
  "
        다음 "
  ++ service_type
  ++ " 요청에 대해 바이브 코딩 개념 관점에서 설명해주세요:
        
        요청 내용:
        "
  ++ str_dict E input_data
  ++ "
        
        바이브 코딩의 기본 개념, 원리, 적용 방법을 포함한 기초 설명을 제공해주세요.
        ".

(** The template of the category: the first value of the local
    [prompt] of [explain]. *)
Definition category_prompt (E : env) (service_type : string) (input_data : dict)
  : string :=
  if service_type =? "개념 이해" then
    _create_concept_prompt input_data
  else if service_type =? "프로젝트 설계" then
    _create_project_concept_prompt input_data
  else if service_type =? "코드 생성" then
    _create_code_concept_prompt input_data
  else if service_type =? "학습 계획" then
    _create_learning_concept_prompt input_data
  else
    _create_general_concept_prompt E input_data service_type.

(** The prompt [explain] sends to the model: the template between the
    coach's introduction and the directions for the answer. *)
Definition explain_prompt (E : env) (service_type : string) (input_data : dict)
  : string :=
  let prompt := category_prompt E service_type input_data in
  "
        당신은 '"
  ++ coach_name
  ++ "'이라는 바이브 코딩 개념 전문 코치입니다.
        "
  ++ coach_intro
  ++ "
        
        "
  ++ prompt
  ++ "
        
        설명 결과에 바이브 코딩의 기본 개념, 원리, 장단점을 반드시 포함해 주세요.
        가능한 한 복잡한 용어는 피하고, 초보자도 이해할 수 있는 명확한 설명을 제공하세요.
        그러나 필요한 경우 기술적 정확성을 위해 적절한 기술 용어도 사용하세요.
        
        응답 형식:
        - 명확한 제목과 구조화된 내용
        - 구체적인 예시와 실제 사용 사례
        - 단계별 설명과 실용적인 팁
        - 마크다운 형식으로 가독성 있게 작성
        ".

Definition explain (E : env) (service_type : string) (input_data : dict)
  : M string :=
  let prompt := explain_prompt E service_type input_data in
  try_except
    (response <- model_generate_content E prompt ;;
     match response with
     | None => ret "AI 모델로부터 응답을 받지 못했습니다. 다시 시도해주세요."
     | Some r =>
         t <- response_text r ;;
         if truthy t then ret (str_of t)
         else ret "AI 모델로부터 응답을 받지 못했습니다. 다시 시도해주세요."
     end)
    (fun e => ret ("개념 분석 중 오류가 발생했습니다: " ++ e)).

End ConceptCoach.
(** ** PromptEngineeringCoach *)

Module PromptEngineeringCoach.

Definition coach_name : string := "이서연 프롬프트 코치".

Definition coach_intro : string :=
  "
        안녕하세요, 이서연 프롬프트 엔지니어링 코치입니다.
        저는 효과적인 바이브 코딩 프롬프트 설계와 패턴을 전문으로 합니다.
        8년간의 AI 프롬프트 엔지니어링과 NLP 경험을 통해 여러분이 원하는 코드를 정확히 생성하는 프롬프트 작성법을 안내해 드리겠습니다.
        ".

Definition _create_concept_prompt_design
  (previous_explanation : string) (input_data : dict) : string :=
  "
        바이브 코딩 개념과 관련된 효과적인 프롬프트 설계 방법을 제안해주세요:
        
        1. 바이브 코딩에 최적화된 프롬프트 구조
           - 명확한 프롬프트 구성 요소
           - 효과적인 프롬프트 템플릿
           - 프롬프트의 상세도와 명확성 균형
        
        2. 바이브 코딩 프롬프트 패턴 및 예시
           - 다양한 코딩 작업을 위한 프롬프트 패턴
           - 실제 사용 사례별 예시 프롬프트
           - 일반적인 프롬프트 실수와 개선 방법
        
        3. 프롬프트 최적화 기법
           - 명확성과 상세함 사이의 균형
           - 모호성 줄이는 방법
           - 반복적 개선을 통한 최적화
        
        질문:
        "
  ++ get input_data "question" ""
  ++ "
        ".

Definition _create_project_prompt_design
  (previous_explanation : string) (input_data : dict) : string :=
  "
        프로젝트 설계를 위한 효과적인 바이브 코딩 프롬프트를 설계해주세요:
        
        1. 프로젝트 요구사항을 프롬프트로 변환하는 방법
           - 프로젝트 범위 명확히 정의하기
           - 기능적/비기능적 요구사항 명시
           - 기술 스택 및 제약조건 포함 방법
        
        2. 프로젝트 구조화 프롬프트 패턴
           - 아키텍처 설계를 위한 프롬프트 템플릿
           - 컴포넌트 분해를 위한 프롬프트 전략
           - 순차적 개발을 위한 프롬프트 체인
        
        3. 구체적인 프로젝트 프롬프트 예시
           - 이 프로젝트에 적용할 수 있는 실제 프롬프트
           - 프롬프트 변형 및 반복 전략
           - 프롬프트 철저성 체크리스트
        
        프로젝트 설명:
        "
  ++ get input_data "project_description" ""
  ++ "
        
        기술 스택:
        "
  ++ get input_data "tech_stack" ""
  ++ "
        ".

Definition _create_code_prompt_design
  (previous_explanation : string) (input_data : dict) : string :=
  "
        코드 생성을 위한 최적화된 바이브 코딩 프롬프트를 설계해주세요:
        
        1. 코드 생성 프롬프트 구조 최적화
           - 명확한 기능 요구사항 표현 방법
           - 입출력 예시 포함 방법
           - 코드 스타일 및 품질 지시 방법
        
        2. 프로그래밍 언어별 프롬프트 패턴
           - "
  ++ get input_data "programming_language" ""
  ++ "에 최적화된 프롬프트 구조
           - 언어별 특수 고려사항
           - 언어 관용구 및 패턴 명시 방법
        
        3. 요청에 대한 구체적 프롬프트 예시
           - 이 코드 요청을 위한 최적화된 프롬프트 작성
           - 잠재적 문제점 해결을 위한 추가 지시사항
           - 반복적 개선을 위한 프롬프트 변형
        
        코드 요청:
        "
  ++ get input_data "code_request" ""
  ++ "
        
        프로그래밍 언어:
        "
  ++ get input_data "programming_language" ""
  ++ "
        ".

Definition _create_learning_prompt_design
  (previous_explanation : string) (input_data : dict) : string :=
  "
        바이브 코딩 학습을 위한 효과적인 프롬프트 패턴과 설계 방법을 제안해주세요:
        
        1. 학습 단계별 프롬프트 설계 전략
           - 초보자를 위한 간단한 프롬프트 패턴
           - 중급자를 위한 확장 가능한 프롬프트 템플릿
           - 고급자를 위한 복잡한 시스템 설계 프롬프트
        
        2. 효과적인 학습 프롬프트 패턴
           - 설명 요청 프롬프트 패턴
           - 코드 생성 프롬프트 패턴
           - 코드 평가 및 개선 프롬프트 패턴
        
        3. 프롬프트 작성 역량 개발 가이드
           - 프롬프트 작성 연습 방법
           - 피드백 기반 개선 프로세스
           - 프롬프트 패턴 라이브러리 구축 방법
        
        현재 지식 수준:
        "
  ++ get input_data "current_level" ""
  ++ "
        
        학습 목표:
        "
  ++ get input_data "learning_goals" ""
  ++ "
        ".

Definition _create_general_prompt_design
  (E : env) (previous_explanation : string) (input_data : dict) (service_type : string) : string :=
  "
        다음 "
  ++ service_type
  ++ " 요청에 대해 프롬프트 설계 관점에서 분석해주세요:
        
        요청 내용:
        "
  ++ str_dict E input_data
  ++ "
        
        효과적인 프롬프트 구조, 패턴, 예시를 구체적으로 제시해주세요.
        ".

(** The template of the category: the first value of the local
    [prompt] of [design]. *)
Definition category_prompt
  (E : env) (previous_explanation : string) (service_type : string) (input_data : dict)
  : string :=
  if service_type =? "개념 이해" then
    _create_concept_prompt_design previous_explanation input_data
  else if service_type =? "프로젝트 설계" then
    _create_project_prompt_design previous_explanation input_data
  else if service_type =? "코드 생성" then
    _create_code_prompt_design previous_explanation input_data
  else if service_type =? "학습 계획" then
    _create_learning_prompt_design previous_explanation input_data
  else
    _create_general_prompt_design E previous_explanation input_data service_type.

(** The prompt [design] sends to the model: the template between the
    coach's introduction and the directions for the answer. *)
Definition design_prompt
  (E : env) (previous_explanation : string) (service_type : string) (input_data : dict)
  : string :=
  let prompt := category_prompt E previous_explanation service_type input_data in
  "
        당신은 '"
  ++ coach_name
  ++ "'이라는 프롬프트 엔지니어링 전문 코치입니다.
        "
  ++ coach_intro
  ++ "
        
        바이브 코딩 개념 코치가 제공한 다음 설명을 검토하고, 프롬프트 설계 관점에서 보완해주세요:
        
        === 개념 코치의 설명 ===
        "
  ++ previous_explanation
  ++ "
        === 설명 끝 ===
        
        "
  ++ prompt
  ++ "
        
        효과적인 프롬프트 구조와 패턴, 구체적인 예시, 최적화 전략을 반드시 포함해 주세요.
        
        응답 형식:
        - 실용적인 프롬프트 템플릿과 예시
        - 단계별 프롬프트 작성 가이드
        - 일반적인 실수와 개선 방법
        - 마크다운 형식으로 코드 블록과 예시 포함
        ".

Definition design
  (E : env) (previous_explanation : string) (service_type : string) (input_data : dict)
  : M string :=
  let prompt := design_prompt E previous_explanation service_type input_data in
  try_except
    (response <- model_generate_content E prompt ;;
     match response with
     | None => ret "AI 모델로부터 응답을 받지 못했습니다. 다시 시도해주세요."
     | Some r =>
         t <- response_text r ;;
         if truthy t then ret (str_of t)
         else ret "AI 모델로부터 응답을 받지 못했습니다. 다시 시도해주세요."
     end)
    (fun e => ret ("프롬프트 설계 중 오류가 발생했습니다: " ++ e)).

End PromptEngineeringCoach.
(** ** ImplementationCoach *)

Module ImplementationCoach.

Definition coach_name : string := "박지훈 구현 코치".

Definition coach_intro : string :=
  "
        안녕하세요, 박지훈 코드 구현 코치입니다.
        저는 바이브 코딩으로 생성된 코드의 구현, 최적화, 디버깅을 전문으로 합니다.
        10년간의 소프트웨어 개발 및 AI 코드 최적화 경험을 통해 효율적이고 실용적인 코드를 제공하겠습니다.
        ".

Definition _create_concept_implementation
  (previous_design : string) (input_data : dict) : string :=
  "
        바이브 코딩 개념을 실제 코드 구현으로 보여주는 예제를 제공해주세요:
        
        1. 바이브 코딩 개념 구현 예시
           - 개념을 설명하는 간단한 데모 코드
           - 바이브 코딩을 사용하는 기본 프레임워크
           - 자연어와 코드 변환 과정의 실제 예시
        
        2. 바이브 코딩 워크플로우 구현
           - 프롬프트 작성부터 코드 생성까지 전체 과정
           - 실제 구현을 위한 코드 스니펫
           - 오류 처리 및 개선 메커니즘
        
        3. 구현 시 주의사항 및 최적화 포인트
           - 일반적인 구현 문제 해결 방법
           - 코드 품질 향상 기법
           - 유지보수 고려사항
        
        질문:
        "
  ++ get input_data "question" ""
  ++ "
        ".

Definition _create_project_implementation
  (previous_design : string) (input_data : dict) : string :=
  "
        프로젝트를 위한 바이브 코딩 구현 방법과 실제 코드를 제공해주세요:
        
        1. 프로젝트 구조 및 핵심 컴포넌트 구현
           - 아키텍처 구현을 위한 코드 스켈레톤
           - 주요 모듈 및 클래스 구현
           - 인터페이스 및 데이터 모델 정의
        
        2. 핵심 기능 구현 예시
           - 중요 기능의 상세 코드 구현
           - 기능 간 통합 및 데이터 흐름
           - 오류 처리 및 예외 관리
        
        3. 성능 최적화 및 품질 개선
           - 코드 효율성 향상 기법
           - 리팩토링 및 코드 품질 개선 접근법
           - 테스트 및 검증 전략
        
        프로젝트 설명:
        "
  ++ get input_data "project_description" ""
  ++ "
        
        기술 스택:
        "
  ++ get input_data "tech_stack" ""
  ++ "
        ".

Definition _create_code_implementation
  (previous_design : string) (input_data : dict) : string :=
  "
        요청한 코드의 실제 구현과 최적화된 버전을 제공해주세요:
        
        1. 기본 코드 구현
           - 요청된 기능의 완전한 코드 구현
           - 주요 로직 및 알고리즘 설명
           - 필요한 의존성 및 설정
        
        2. 코드 최적화 및 개선
           - 성능 최적화 포인트
           - 클린 코드 원칙 적용
           - 견고성 및 예외 처리 강화
        
        3. 사용 방법 및 예시
           - 코드 사용법 및 호출 방법
           - 실행 예시 및 예상 결과
           - 다양한 시나리오별 활용 방법
        
        코드 요청:
        "
  ++ get input_data "code_request" ""
  ++ "
        
        프로그래밍 언어:
        "
  ++ get input_data "programming_language" ""
  ++ "
        ".

Definition _create_learning_implementation
  (previous_design : string) (input_data : dict) : string :=
  "
        바이브 코딩 학습을 위한 실제 코드 예제와 실습 가이드를 제공해주세요:
        
        1. 단계별 학습을 위한 코드 구현 예제
           - 초보자용 기본 바이브 코딩 예제
           - 중급자용 확장 예제
           - 고급자용 복잡한 시스템 예제
        
        2. 실습 프로젝트 구현 가이드
           - 단계별 미니 프로젝트 구현 코드
           - 핵심 스킬 개발을 위한 연습 문제
           - 포트폴리오 구축을 위한 프로젝트 아이디어
        
        3. 자기 주도 학습을 위한 코드 리소스
           - 참고할 만한 코드 저장소 및 프로젝트
           - 학습 진행 추적 도구 구현
           - 스터디 그룹 및 코드 리뷰 활용 방법
        
        현재 지식 수준:
        "
  ++ get input_data "current_level" ""
  ++ "
        
        학습 목표:
        "
  ++ get input_data "learning_goals" ""
  ++ "
        ".

Definition _create_general_implementation
  (E : env) (previous_design : string) (input_data : dict) (service_type : string) : string :=
  "
        다음 "
  ++ service_type
  ++ " 요청에 대한 구체적인 코드 구현과 최적화 방안을 제공해주세요:
        
        요청 내용:
        "
  ++ str_dict E input_data
  ++ "
        
        실행 가능한 코드 구현, 최적화 포인트, 사용 방법을 구체적으로 제시해주세요.
        ".

(** The template of the category: the first value of the local
    [prompt] of [implement]. *)
Definition category_prompt
  (E : env) (previous_design : string) (service_type : string) (input_data : dict)
  : string :=
  if service_type =? "개념 이해" then
    _create_concept_implementation previous_design input_data
  else if service_type =? "프로젝트 설계" then
    _create_project_implementation previous_design input_data
  else if service_type =? "코드 생성" then
    _create_code_implementation previous_design input_data
  else if service_type =? "학습 계획" then
    _create_learning_implementation previous_design input_data
  else
    _create_general_implementation E previous_design input_data service_type.

(** The prompt [implement] sends to the model: the template between the
    coach's introduction and the directions for the answer. *)
Definition implement_prompt
  (E : env) (previous_design : string) (service_type : string) (input_data : dict)
  : string :=
  let prompt := category_prompt E previous_design service_type input_data in
  "
        당신은 '"
  ++ coach_name
  ++ "'이라는 코드 구현 전문 코치입니다.
        "
  ++ coach_intro
  ++ "
        
        개념 코치와 프롬프트 코치가 제공한, 다음 분석을 검토하고 최종적으로 코드 구현을 완성해주세요:
        
        === 이전 코치들의 분석 ===
        "
  ++ previous_design
  ++ "
        === 분석 끝 ===
        
        "
  ++ prompt
  ++ "
        
        최종 결과에는 다음 세 코치의 관점이 균형있게 통합되어야 합니다:
        1. 개념 코치 (바이브 코딩의 기본 개념 및 원리)
        2. 프롬프트 코치 (효과적인 프롬프트 설계 및 패턴)
        3. 구현 코치 (실제 코드 구현 및 최적화)
        
        실행 가능하고 최적화된 코드, 사용 방법, 주의 사항을 포함한 종합적인 구현 가이드를 제공해주세요.
        코드는 Markdown 형식으로 ```python (또는 해당 언어) 코드 블록 안에 포함해주세요.
        필요한 경우 코드 블록 외부에 설명을 추가해주세요.
        
        응답 형식:
        - 완전한 실행 가능한 코드 제공
        - 코드 설명과 사용법 포함
        - 성능 최적화 팁과 주의사항
        - 마크다운 형식으로 구조화된 가이드
        ".

Definition implement
  (E : env) (previous_design : string) (service_type : string) (input_data : dict)
  : M string :=
  let prompt := implement_prompt E previous_design service_type input_data in
  try_except
    (response <- model_generate_content E prompt ;;
     match response with
     | None => ret "AI 모델로부터 응답을 받지 못했습니다. 다시 시도해주세요."
     | Some r =>
         t <- response_text r ;;
         if truthy t then ret (str_of t)
         else ret "AI 모델로부터 응답을 받지 못했습니다. 다시 시도해주세요."
     end)
    (fun e => ret ("코드 구현 중 오류가 발생했습니다: " ++ e)).

End ImplementationCoach.
(** ** VibeCodingTeam *)

Module VibeCodingTeam.

Definition system_error : string :=
  "시스템 오류가 발생했습니다. API 키를 확인하고 다시 시도해주세요.".

(** The body of the outer [try] of [get_coding_advice]. *)
Definition advice_steps (E : env) (service_type : string) (input_data : dict)
  : M dict :=
  timestamp <- datetime_now E ;;
  let workflow_log :=
    {| service_type := service_type;
       timestamp := timestamp;
       coaches_involved :=
         ["ConceptCoach"; "PromptEngineeringCoach"; "ImplementationCoach"];
       steps := [] |} in
  st_markdown E "### 1단계: 바이브 코딩 개념 분석 중..." ;;
  '(concept_explanation, workflow_log) <-
    st_spinner E "바이브 코딩 개념 코치가 분석 중입니다..."
      (try_except
         (concept_explanation <- ConceptCoach.explain E service_type input_data ;;
          ret (concept_explanation,
               steps_append workflow_log
                 {| coach := "ConceptCoach";
                    action := "concept_explanation";
                    status := "success";
                    error := None |}))
         (fun e =>
            st_error ("개념 코치 분석 중 오류가 발생했습니다: " ++ e) ;;
            ret ("개념 분석 중 오류가 발생했습니다. 다시 시도해주세요.",
                 steps_append workflow_log
                   {| coach := "ConceptCoach";
                      action := "concept_explanation";
                      status := "error";
                      error := Some e |}))) ;;
  st_markdown E "### 2단계: 프롬프트 분석 및 설계 중..." ;;
  '(prompt_design, workflow_log) <-
    st_spinner E "프롬프트 코치가 설계 중입니다..."
      (try_except
         (prompt_design <-
            PromptEngineeringCoach.design E concept_explanation service_type
              input_data ;;
          ret (prompt_design,
               steps_append workflow_log
                 {| coach := "PromptEngineeringCoach";
                    action := "prompt_design";
                    status := "success";
                    error := None |}))
         (fun e =>
            st_error ("프롬프트 코치 분석 중 오류가 발생했습니다: " ++ e) ;;
            ret ("프롬프트 설계 중 오류가 발생했습니다. 다시 시도해주세요.",
                 steps_append workflow_log
                   {| coach := "PromptEngineeringCoach";
                      action := "prompt_design";
                      status := "error";
                      error := Some e |}))) ;;
  st_markdown E "### 3단계: 코드 구현 및 최적화 중..." ;;
  '(final_implementation, workflow_log) <-
    st_spinner E "구현 코치가 최종 코드를 준비 중입니다..."
      (try_except
         (final_implementation <-
            ImplementationCoach.implement E prompt_design service_type
              input_data ;;
          ret (final_implementation,
               steps_append workflow_log
                 {| coach := "ImplementationCoach";
                    action := "implementation";
                    status := "success";
                    error := None |}))
         (fun e =>
            st_error ("구현 코치 분석 중 오류가 발생했습니다: " ++ e) ;;
            ret ("코드 구현 중 오류가 발생했습니다. 다시 시도해주세요.",
                 steps_append workflow_log
                   {| coach := "ImplementationCoach";
                      action := "implementation";
                      status := "error";
                      error := Some e |}))) ;;
  workflow_logs_append workflow_log ;;
  ret [("concept", concept_explanation);
       ("prompt", prompt_design);
       ("implementation", final_implementation)].

Definition get_coding_advice (E : env) (service_type : string)
  (input_data : dict) : M dict :=
  try_except
    (advice_steps E service_type input_data)
    (fun e =>
       st_error ("전체 워크플로우 실행 중 오류가 발생했습니다: " ++ e) ;;
       ret [("concept", system_error);
            ("prompt", system_error);
            ("implementation", system_error)]).

End VibeCodingTeam.

(** ** The three stages, side by side *)

Inductive stage : Type := Explain | Design | Implement.

(** The prompt a stage sends; [previous] is the text handed over by the
    coordinator (the first stage has none). *)
Definition stage_prompt (E : env) (s : stage) (previous service_type : string)
  (input_data : dict) : string :=
  match s with
  | Explain => ConceptCoach.explain_prompt E service_type input_data
  | Design => PromptEngineeringCoach.design_prompt E previous service_type input_data
  | Implement => ImplementationCoach.implement_prompt E previous service_type input_data
  end.

Definition run_stage (E : env) (s : stage) (previous service_type : string)
  (input_data : dict) : M string :=
  match s with
  | Explain => ConceptCoach.explain E service_type input_data
  | Design => PromptEngineeringCoach.design E previous service_type input_data
  | Implement => ImplementationCoach.implement E previous service_type input_data
  end.

(** The template a stage selects for the category. *)
Definition stage_template (E : env) (s : stage) (previous service_type : string)
  (input_data : dict) : string :=
  match s with
  | Explain => ConceptCoach.category_prompt E service_type input_data
  | Design => PromptEngineeringCoach.category_prompt E previous service_type input_data
  | Implement => ImplementationCoach.category_prompt E previous service_type input_data
  end.

(** The generic template of a stage. *)
Definition general_template (E : env) (s : stage) (previous service_type : string)
  (input_data : dict) : string :=
  match s with
  | Explain =>
      ConceptCoach._create_general_concept_prompt E input_data service_type
  | Design =>
      PromptEngineeringCoach._create_general_prompt_design E previous input_data
        service_type
  | Implement =>
      ImplementationCoach._create_general_implementation E previous input_data
        service_type
  end.

(** The choices of the service selector of [main]; the branches of the
    three coaches test for the same four. *)
Definition known_categories : list string :=
  ["개념 이해"; "코드 생성"; "프로젝트 설계"; "학습 계획"].

(** The message of a stage that got no text. *)
Definition no_response_message : string :=
  "AI 모델로부터 응답을 받지 못했습니다. 다시 시도해주세요.".

(** How the message of a stage whose call raised begins. *)
Definition failure_prefix (s : stage) : string :=
  match s with
  | Explain => "개념 분석 중 오류가 발생했습니다: "
  | Design => "프롬프트 설계 중 오류가 발생했습니다: "
  | Implement => "코드 구현 중 오류가 발생했습니다: "
  end.

(** The external call of a stage raises [e]: either [generate_content]
    does, or reading [response.text] does. *)
Definition call_raises (E : env) (history : list string) (prompt e : string)
  : Prop :=
  generate_content E history prompt = Raise e
  \/ exists r, generate_content E history prompt = Return (Some r)
               /\ text r = Raise e.

(** The external call of a stage succeeds with the text [t]; a falsy
    response counts as no text. *)
Definition call_returns (E : env) (history : list string) (prompt : string)
  (t : option string) : Prop :=
  (generate_content E history prompt = Return None /\ t = None)
  \/ exists r, generate_content E history prompt = Return (Some r)
               /\ text r = Return t.

(** ** Characters

    A Python [str] is a sequence of characters (code points), and [re]
    works on characters.  In the UTF-8 encoding a character is a byte
    that is not a continuation byte, followed by its continuation
    bytes. *)

Module Unicode.

(** A byte of the form 10xxxxxx. *)
Definition is_continuation (b : ascii) : bool :=
  Nat.leb 128 (nat_of_ascii b) && Nat.leb (nat_of_ascii b) 191.

(** The characters of a text, each as its bytes. *)
Fixpoint chars (s : string) : list string :=
  match s with
  | "" => []
  | String b s' =>
      match chars s' with
      | [] => [String b ""]
      | c :: cs =>
          (* [c] starts with the first byte of [s'] *)
          match c with
          | "" => String b "" :: c :: cs
          | String b' _ =>
              if is_continuation b' then String b c :: cs
              else String b "" :: c :: cs
          end
      end
  end.

(** The text made of the given characters. *)
Fixpoint text (cs : list string) : string :=
  match cs with
  | [] => ""
  | c :: cs' => c ++ text cs'
  end.

End Unicode.

(** ** Regular expressions

    The part of Python's [re] that [main] uses: a backtracking matcher
    over the characters of a text that tries the alternatives of a
    pattern in the order [re] does, and [findall] for a pattern with one
    capturing group. *)

Module Re.

Inductive regex : Type :=
| Str (s : string)               (* literal text *)
| Class (p : string -> bool)     (* one character of a class *)
| Cat (r1 r2 : regex)            (* r1 r2 *)
| Opt (r : regex)                (* r?  greedy *)
| Plus (p : string -> bool)      (* c+  greedy, c a class *)
| LazyPlus (p : string -> bool)  (* c+? lazy, c a class *)
| Group (r : regex).             (* (r), the capturing group *)

(** The input left after the characters [lit], if the input starts
    with them. *)
Fixpoint strip (lit input : list string) : option (list string) :=
  match lit with
  | [] => Some input
  | c :: lit' =>
      match input with
      | [] => None
      | d :: input' => if c =? d then strip lit' input' else None
      end
  end.

(** The characters between the start of [input] and the start of its
    suffix [rest]. *)
Definition consumed (input rest : list string) : list string :=
  firstn (length input - length rest) input.

Section Exec.

Context {R : Type}.

(** Longest run first, then shorter ones. *)
Fixpoint plus_greedy (p : string -> bool) (input : list string)
  (k : list string -> option R) : option R :=
  match input with
  | [] => None
  | c :: rest =>
      if p c then
        match plus_greedy p rest k with
        | Some x => Some x
        | None => k rest
        end
      else None
  end.

(** Shortest run first, then longer ones. *)
Fixpoint plus_lazy (p : string -> bool) (input : list string)
  (k : list string -> option R) : option R :=
  match input with
  | [] => None
  | c :: rest =>
      if p c then
        match k rest with
        | Some x => Some x
        | None => plus_lazy p rest k
        end
      else None
  end.

(** [exec r input g k]: match [r] at the start of [input] and hand the
    rest of the input and the characters of the group to [k]; when [k]
    fails, the next alternative of [r] is tried. *)
Fixpoint exec (r : regex) (input : list string) (g : option (list string))
  (k : list string -> option (list string) -> option R) : option R :=
  match r with
  | Str s =>
      match strip (Unicode.chars s) input with
      | Some rest => k rest g
      | None => None
      end
  | Class p =>
      match input with
      | [] => None
      | c :: rest => if p c then k rest g else None
      end
  | Cat r1 r2 => exec r1 input g (fun rest g' => exec r2 rest g' k)
  | Opt r' =>
      match exec r' input g k with
      | Some x => Some x
      | None => k input g
      end
  | Plus p => plus_greedy p input (fun rest => k rest g)
  | LazyPlus p => plus_lazy p input (fun rest => k rest g)
  | Group r' =>
      exec r' input g (fun rest _ => k rest (Some (consumed input rest)))
  end.

End Exec.

(** [pattern.match] at the start of [input]: the characters of the group
    (none when the group took no part) and the input after the match. *)
Definition match_here (r : regex) (input : list string)
  : option (list string * list string) :=
  exec r input None
    (fun rest g => Some (match g with Some cs => cs | None => [] end, rest)).

(** Scan from left to right; after a match go on where it ended, after
    an empty match or a failure one character further. *)
Fixpoint findall_from (fuel : nat) (r : regex) (input : list string)
  : list (list string) :=
  match fuel with
  | O => []
  | S fuel' =>
      let next :=
        match input with
        | [] => []
        | _ :: input' => findall_from fuel' r input'
        end in
      match match_here r input with
      | Some (g, rest) =>
          g :: (if Nat.ltb (length rest) (length input)
                then findall_from fuel' r rest
                else next)
      | None => next
      end
  end.

(** [pattern.findall(s)], for a pattern with one group: the texts of the
    group. *)
Definition findall (r : regex) (s : string) : list string :=
  map Unicode.text
    (findall_from (S (length (Unicode.chars s))) r (Unicode.chars s)).

Definition in_range (lo hi : nat) (c : ascii) : bool :=
  Nat.leb lo (nat_of_ascii c) && Nat.leb (nat_of_ascii c) hi.

(** [\w]: an ASCII letter, digit or underscore, or a character outside
    ASCII that Unicode counts as a letter or digit.  Which characters
    these are is not part of the program: [isalnum] is [str.isalnum] on
    one character outside ASCII. *)
Definition word_char (isalnum : string -> bool) (c : string) : bool :=
  match c with
  | String b "" =>
      if Text.is_ascii b then
        in_range 97 122 b || in_range 65 90 b || in_range 48 57 b
        || Nat.eqb (nat_of_ascii b) 95
      else isalnum c
  | _ => isalnum c
  end.

(** [[\s\S]]. *)
Definition any_char (c : string) : bool := true.

End Re.

(** ** The download of [main] *)

Definition fence : string := "```".

(** [re.compile(r'```(?:\w+)?\n([\s\S]+?)\n```')]. *)
Definition code_pattern (isalnum : string -> bool) : Re.regex :=
  Re.Cat (Re.Str fence)
    (Re.Cat (Re.Opt (Re.Plus (Re.word_char isalnum)))
       (Re.Cat (Re.Str Text.nl)
          (Re.Cat (Re.Group (Re.LazyPlus Re.any_char))
             (Re.Str (Text.nl ++ fence))))).

Definition code_matches (isalnum : string -> bool)
  (implementation_content : string) : list string :=
  Re.findall (code_pattern isalnum) implementation_content.

(** The text offered for download: [combined_code] when [code_matches]
    is not empty; otherwise [main] offers nothing. *)
Definition combined_code (isalnum : string -> bool)
  (implementation_content : string) : option string :=
  match code_matches isalnum implementation_content with
  | [] => None
  | _ :: _ =>
      Some (Text.join (Text.nl ++ Text.nl)
              (code_matches isalnum implementation_content))
  end.

(** The table of [get_file_extension]. *)
Definition extensions : dict :=
  [ ("python", "py");
    ("javascript", "js");
    ("typescript", "ts");
    ("java", "java");
    ("c#", "cs");
    ("go", "go");
    ("ruby", "rb");
    ("php", "php");
    ("swift", "swift");
    ("kotlin", "kt");
    ("html", "html");
    ("css", "css");
    ("sql", "sql");
    ("r", "r");
    ("rust", "rs");
    ("c++", "cpp");
    ("c", "c");
    ("scala", "scala");
    ("dart", "dart");
    ("powershell", "ps1");
    ("bash", "sh");
    ("perl", "pl") ].

Definition get_file_extension (E : env) (language : string) : string :=
  get extensions (lower E language) "txt".

(** [str.lower] on ASCII text. *)
Definition lower_char (c : ascii) : ascii :=
  if Re.in_range 65 90 c then ascii_of_nat (nat_of_ascii c + 32) else c.

Fixpoint ascii_lower (s : string) : string :=
  match s with
  | "" => ""
  | String c s' => String (lower_char c) (ascii_lower s')
  end.

(** A Python whose [lower] and [repr] are right for ASCII text without
    quotes, and a model, clock and page that are given. *)
Definition plain_env (model : list string -> string -> outcome (option response))
  (clock : outcome string) (fault : ui_event -> option string) : env :=
  {| repr := fun s => "'" ++ s ++ "'";
     lower := ascii_lower;
     generate_content := model;
     now := clock;
     st_fault := fault |}.

(** A model whose every call fails with the message [msg]. *)
Definition failing_model (msg : string)
  : list string -> string -> outcome (option response) :=
  fun _ _ => Raise msg.

(** A model that answers every prompt with the text [t]. *)
Definition constant_model (t : option string)
  : list string -> string -> outcome (option response) :=
  fun _ _ => Return (Some {| text := Return t |}).

Definition no_fault : ui_event -> option string := fun _ => None.

Definition empty_world : world :=
  {| sent := []; screen := []; workflow_logs := [] |}.

(** ** Fenced code blocks, as the description of the download has them

    A text is some prose, then fenced blocks, each followed by prose.  A
    block is an opening line of three backticks and an optional tag, the
    lines of the body, and a closing line of three backticks. *)

Record fenced_block : Type := {
  tag : string;
  body : string
}.

Definition render_block (b : fenced_block) : string :=
  fence ++ tag b ++ Text.nl ++ body b ++ Text.nl ++ fence.

Fixpoint render_blocks (blocks : list (fenced_block * string)) : string :=
  match blocks with
  | [] => ""
  | (b, prose) :: blocks' => render_block b ++ prose ++ render_blocks blocks'
  end.

Definition render_text (prose : string) (blocks : list (fenced_block * string))
  : string :=
  prose ++ render_blocks blocks.

Definition bodies (blocks : list (fenced_block * string)) : list string :=
  map (fun bp => body (fst bp)) blocks.

(** What the description promises for such a text: the bodies in order,
    a blank line between two of them; nothing when there is no block. *)
Definition expected_download (blocks : list (fenced_block * string))
  : option string :=
  match blocks with
  | [] => None
  | _ :: _ => Some (Text.join (Text.nl ++ Text.nl) (bodies blocks))
  end.

Definition dquote : string := String "034"%char "".

(** The text of the description's example: two blocks, the first with a
    tag, and prose around them. *)
Definition two_blocks : list (fenced_block * string) :=
  [ ({| tag := "python"; body := "print(" ++ dquote ++ "a" ++ dquote ++ ")" |},
     Text.nl ++ "then" ++ Text.nl);
    ({| tag := ""; body := "print(" ++ dquote ++ "b" ++ dquote ++ ")" |},
     Text.nl) ].

(** ** What a run displays *)

(** The progress calls of [get_coding_advice], in the order of the
    program: a heading and a spinner for each stage. *)
Definition progress_events : list ui_event :=
  [Markdown "### 1단계: 바이브 코딩 개념 분석 중...";
   Spinner "바이브 코딩 개념 코치가 분석 중입니다...";
   Markdown "### 2단계: 프롬프트 분석 및 설계 중...";
   Spinner "프롬프트 코치가 설계 중입니다...";
   Markdown "### 3단계: 코드 구현 및 최적화 중...";
   Spinner "구현 코치가 최종 코드를 준비 중입니다..."].

(** How the banner of the outer handler begins. *)
Definition workflow_failure_prefix : string :=
  "전체 워크플로우 실행 중 오류가 발생했습니다: ".

(** ** The requests [main] builds

    The dictionaries [main] passes to [get_coding_advice], one for each
    service, from the values of the widgets. *)

Definition concept_input_data (question experience_level : string) : dict :=
  [("question", question);
   ("experience_level", experience_level)].

Definition code_input_data
  (code_request programming_language complexity specifics : string) : dict :=
  [("code_request", code_request);
   ("programming_language", programming_language);
   ("complexity", complexity);
   ("specifics", specifics)].

Definition project_input_data
  (project_description tech_stack project_scale development_time
   project_constraints : string) : dict :=
  [("project_description", project_description);
   ("tech_stack", tech_stack);
   ("project_scale", project_scale);
   ("development_time", development_time);
   ("project_constraints", project_constraints)].

Definition learning_input_data
  (current_level coding_experience learning_goals : string)
  (preferred_languages : list string) (learning_time : string)
  (learning_style : list string) : dict :=
  [("current_level", current_level);
   ("coding_experience", coding_experience);
   ("learning_goals", learning_goals);
   ("preferred_languages", Text.join ", " preferred_languages);
   ("learning_time", learning_time);
   ("learning_style",
    match learning_style with
    | [] => ""
    | _ :: _ => Text.join ", " learning_style
    end)].

(** The fields of the request that the templates of a category read
    (the keys of its [input_data.get] calls). *)
Definition category_fields (category : string) : list string :=
  if category =? "개념 이해" then ["question"]
  else if category =? "프로젝트 설계" then ["project_description"; "tech_stack"]
  else if category =? "코드 생성" then ["code_request"; "programming_language"]
  else if category =? "학습 계획" then ["current_level"; "learning_goals"]
  else [].

(** ** The file [main] offers *)

(** The choices of the language selector of [main]; the last one opens
    a free text field. *)
Definition programming_languages : list string :=
  ["Python"; "JavaScript"; "Java"; "C#"; "Go"; "Ruby"; "PHP"; "TypeScript"; "Swift"; "Kotlin"; "기타"].

(** [filename] of [main]. *)
Definition filename (E : env) (programming_language : string) : string :=
  "vibe_coding_" ++ lower E programming_language ++ "_code."
  ++ get_file_extension E programming_language.

(** A whole character: a byte that is no continuation byte, followed by
    continuation bytes only. *)
Definition whole_char (c : string) : bool :=
  match c with
  | "" => false
  | String b r =>
      negb (Unicode.is_continuation b)
      && Text.all_chars Unicode.is_continuation r
  end.

(** The blocks a scan finds: every character of the tag is a word
    character and the body is not empty. *)
Definition found_block (isalnum : string -> bool)
  (bp : fenced_block * string) : Prop :=
  forallb (Re.word_char isalnum) (Unicode.chars (tag (fst bp))) = true
  /\ body (fst bp) <> "".

(** A Unicode table in which every character outside ASCII is a letter
    or digit. *)
Definition all_alnum : string -> bool := fun _ => true.

(** A page on which entering the spinner with the text [body] raises
    [msg], and every other progress call returns. *)
Definition fault_on_spinner (body msg : string) : ui_event -> option string :=
  fun ev =>
    match ev with
    | Spinner body' => if body' =? body then Some msg else None
    | _ => None
    end.

(** * Properties *)

(** ** Text *)

Lemma append_assoc (a b c : string) : (a ++ b) ++ c = a ++ b ++ c.
Proof. induction a as [|x a IH]; simpl; [reflexivity | now rewrite IH]. Qed.

Lemma append_nil_r (a : string) : a ++ "" = a.
Proof. induction a as [|x a IH]; simpl; [reflexivity | now rewrite IH]. Qed.

Lemma length_append (a b : string) :
  String.length (a ++ b) = String.length a + String.length b.
Proof. induction a as [|x a IH]; simpl; [reflexivity | now rewrite IH]. Qed.

Lemma contains_here (x a b : string) : Text.contains x (a ++ x ++ b).
Proof. now exists a, b. Qed.

Lemma contains_refl (x : string) : Text.contains x x.
Proof. exists "", "". simpl. now rewrite append_nil_r. Qed.

Lemma contains_app_r (x a b : string) :
  Text.contains x b -> Text.contains x (a ++ b).
Proof.
  intros (p & q & ->). exists (a ++ p), q. now rewrite append_assoc.
Qed.

Lemma contains_app_l (x a b : string) :
  Text.contains x a -> Text.contains x (a ++ b).
Proof.
  intros (p & q & ->). exists p, (q ++ b). now rewrite !append_assoc.
Qed.

Create HintDb text.
#[local] Hint Resolve contains_here contains_refl contains_app_r contains_app_l
  : text.

(** ** The stage runners *)

(** What a stage returns, by what its call to the model did; the prompt
    is on the model's record in every case. *)
Lemma run_stage_outcome (E : env) (s : stage) (previous category : string)
  (input_data : dict) (w : world) :
  let prompt := stage_prompt E s previous category input_data in
  run_stage E s previous category input_data w =
  (Return
     match generate_content E (sent w) prompt with
     | Raise e => failure_prefix s ++ e
     | Return None => no_response_message
     | Return (Some r) =>
         match text r with
         | Raise e => failure_prefix s ++ e
         | Return t => if truthy t then str_of t else no_response_message
         end
     end,
   record_prompt prompt w).
Proof.
  destruct s; cbv zeta;
    cbv [run_stage stage_prompt failure_prefix no_response_message
         ConceptCoach.explain PromptEngineeringCoach.design
         ImplementationCoach.implement
         try_except bind model_generate_content response_text ret];
    match goal with
    | |- context [generate_content E (sent w) ?p] =>
        destruct (generate_content E (sent w) p) as [[r|]|e]
    end;
    try reflexivity;
    destruct (text r) as [t|e]; try reflexivity;
    destruct (truthy t); reflexivity.
Qed.

(** A stage returns a text, whatever the model does, and the text
    depends on the world only through the model's record. *)
Lemma run_stage_returns (E : env) (s : stage) (previous category : string)
  (input_data : dict) (history : list string) :
  exists t, forall w, sent w = history ->
    run_stage E s previous category input_data w =
    (Return t, record_prompt (stage_prompt E s previous category input_data) w).
Proof.
  pose proof (run_stage_outcome E s previous category input_data) as H.
  cbv zeta in H.
  eexists. intros w Hw. rewrite H, Hw. reflexivity.
Qed.

(** The text of a stage whose call raised. *)
Lemma stage_runner_catches_call_failure_aux (E : env) (s : stage)
  (previous category : string) (input_data : dict) (w : world) (e : string) :
  call_raises E (sent w) (stage_prompt E s previous category input_data) e ->
  exists t,
    run_stage E s previous category input_data w =
    (Return t, record_prompt (stage_prompt E s previous category input_data) w)
    /\ t = failure_prefix s ++ e.
Proof.
  intros H. exists (failure_prefix s ++ e). split; [| reflexivity].
  rewrite run_stage_outcome.
  destruct H as [-> | (r & -> & ->)]; reflexivity.
Qed.

(** C5: when the external call of a stage runner (explain, design or
    implement) raises, the runner catches the exception and returns a
    text that contains the exception's text; nothing escapes the
    runner. *)
Theorem stage_runner_catches_call_failure (E : env) (s : stage)
  (previous category : string) (input_data : dict) (w : world) (e : string) :
  call_raises E (sent w) (stage_prompt E s previous category input_data) e ->
  exists t,
    run_stage E s previous category input_data w =
    (Return t, record_prompt (stage_prompt E s previous category input_data) w)
    /\ t = failure_prefix s ++ e
    /\ Text.contains e t.
Proof.
  intros H.
  destruct (stage_runner_catches_call_failure_aux E s previous category
              input_data w e H) as (t & Hrun & ->).
  exists (failure_prefix s ++ e).
  split; [exact Hrun |]. split; [reflexivity |].
  exists (failure_prefix s), "". now rewrite append_nil_r.
Qed.

Lemma stage_runner_catches_call_failure_witness :
  call_raises (plain_env (failing_model "quota") (Return "2025-01-01 00:00:00") no_fault)
    (sent empty_world)
    (stage_prompt (plain_env (failing_model "quota") (Return "2025-01-01 00:00:00") no_fault)
       Design "earlier" "코드 생성" [("code_request", "sort")])
    "quota"
  /\ exists t,
       run_stage (plain_env (failing_model "quota") (Return "2025-01-01 00:00:00") no_fault)
         Design "earlier" "코드 생성" [("code_request", "sort")] empty_world =
       (Return t,
        record_prompt
          (stage_prompt (plain_env (failing_model "quota") (Return "2025-01-01 00:00:00") no_fault)
             Design "earlier" "코드 생성" [("code_request", "sort")])
          empty_world)
       /\ t = failure_prefix Design ++ "quota"
       /\ Text.contains "quota" t.
Proof.
  assert (H : call_raises
                (plain_env (failing_model "quota") (Return "2025-01-01 00:00:00") no_fault)
                (sent empty_world)
                (stage_prompt
                   (plain_env (failing_model "quota") (Return "2025-01-01 00:00:00") no_fault)
                   Design "earlier" "코드 생성" [("code_request", "sort")])
                "quota")
    by (left; reflexivity).
  split; [exact H |].
  exact (stage_runner_catches_call_failure _ Design "earlier" "코드 생성"
           [("code_request", "sort")] empty_world "quota" H).
Defined.

(** C6: when the external call of a stage runner succeeds with an empty
    or null text, the runner returns the fixed no-response message; when
    it succeeds with a text that is not empty, the runner returns that
    text as it is.  This holds for every category. *)
Theorem stage_runner_empty_or_verbatim (E : env) (s : stage)
  (previous category : string) (input_data : dict) (w : world)
  (t : option string) :
  call_returns E (sent w) (stage_prompt E s previous category input_data) t ->
  (t = None \/ t = Some "" ->
   run_stage E s previous category input_data w =
   (Return no_response_message,
    record_prompt (stage_prompt E s previous category input_data) w))
  /\ (forall body, t = Some body -> body <> "" ->
      run_stage E s previous category input_data w =
      (Return body,
       record_prompt (stage_prompt E s previous category input_data) w)).
Proof.
  intros H. split.
  - intros Ht. rewrite run_stage_outcome.
    destruct H as [(-> & _) | (r & -> & ->)]; [reflexivity |].
    destruct Ht as [-> | ->]; reflexivity.
  - intros body -> Hbody. rewrite run_stage_outcome.
    destruct H as [(_ & Hnone) | (r & -> & ->)]; [discriminate |].
    simpl. apply String.eqb_neq in Hbody. now rewrite Hbody.
Qed.

Lemma stage_runner_empty_or_verbatim_witness :
  call_returns (plain_env (constant_model (Some "")) (Return "2025-01-01 00:00:00") no_fault)
    (sent empty_world)
    (stage_prompt (plain_env (constant_model (Some "")) (Return "2025-01-01 00:00:00") no_fault)
       Explain "" "학습 계획" [])
    (Some "")
  /\ run_stage (plain_env (constant_model (Some "")) (Return "2025-01-01 00:00:00") no_fault)
       Explain "" "학습 계획" [] empty_world =
     (Return no_response_message,
      record_prompt
        (stage_prompt (plain_env (constant_model (Some "")) (Return "2025-01-01 00:00:00") no_fault)
           Explain "" "학습 계획" [])
        empty_world).
Proof.
  assert (H : call_returns
                (plain_env (constant_model (Some "")) (Return "2025-01-01 00:00:00") no_fault)
                (sent empty_world)
                (stage_prompt
                   (plain_env (constant_model (Some "")) (Return "2025-01-01 00:00:00") no_fault)
                   Explain "" "학습 계획" [])
                (Some ""))
    by (right; eexists; split; reflexivity).
  split; [exact H |].
  exact (proj1 (stage_runner_empty_or_verbatim _ Explain "" "학습 계획" []
                  empty_world (Some "") H) (or_intror eq_refl)).
Defined.

(** ** The template selector *)

Lemma cons_append_not_empty (c : ascii) (a b : string) : String c a ++ b <> "".
Proof. discriminate. Qed.

Lemma unknown_category (category : string) :
  ~ In category known_categories ->
  (category =? "개념 이해") = false
  /\ (category =? "프로젝트 설계") = false
  /\ (category =? "코드 생성") = false
  /\ (category =? "학습 계획") = false.
Proof.
  intros H. repeat split; apply String.eqb_neq; intros ->; apply H; simpl; tauto.
Qed.

(** C7: for each of the four known categories and any request (also one
    without any field, or with empty fields) the template selector of
    every stage returns a text that is not empty; for a category that is
    not one of the four it returns the generic template, and that text
    contains the category and the serialized request.  The selector is a
    total function: it returns for every input. *)
Theorem template_selector_total_with_fallback (E : env) (previous : string)
  (input_data : dict) :
  Forall (fun category =>
            forall s, stage_template E s previous category input_data <> "")
    known_categories
  /\ forall category, ~ In category known_categories ->
       forall s,
         stage_template E s previous category input_data =
         general_template E s previous category input_data
         /\ Text.contains category
              (stage_template E s previous category input_data)
         /\ Text.contains (str_dict E input_data)
              (stage_template E s previous category input_data).
Proof.
  split.
  - repeat constructor; intros s; destruct s; apply cons_append_not_empty.
  - intros category H s.
    destruct (unknown_category category H) as (H1 & H2 & H3 & H4).
    assert (Hsel : stage_template E s previous category input_data =
                   general_template E s previous category input_data).
    { destruct s;
        cbv [stage_template general_template ConceptCoach.category_prompt
             PromptEngineeringCoach.category_prompt
             ImplementationCoach.category_prompt];
        now rewrite H1, H2, H3, H4. }
    rewrite Hsel. split; [reflexivity |].
    destruct s;
      cbv [general_template ConceptCoach._create_general_concept_prompt
           PromptEngineeringCoach._create_general_prompt_design
           ImplementationCoach._create_general_implementation];
      split; auto 6 with text.
Qed.

(** ** The coordinator *)

Ltac world_eq :=
  cbn [sent screen workflow_logs record_prompt display store_log firstn];
  rewrite <- ?app_assoc, ?app_nil_r; reflexivity.

Lemma explain_is_stage (E : env) (category : string) (input_data : dict) :
  ConceptCoach.explain E category input_data =
  run_stage E Explain "" category input_data.
Proof. reflexivity. Qed.

(** One run of the body of the outer [try]: either every progress call
    returned, the three stages ran in order and the log of the run was
    stored; or the clock or a progress call raised, some stages had run
    by then, and nothing was stored. *)
Lemma advice_steps_run (E : env) (category : string) (input_data : dict)
  (w : world) :
  exists t1 t2 t3,
    let p1 := stage_prompt E Explain "" category input_data in
    let p2 := stage_prompt E Design t1 category input_data in
    let p3 := stage_prompt E Implement t2 category input_data in
    (forall w0, sent w0 = sent w ->
       ConceptCoach.explain E category input_data w0 =
       (Return t1, record_prompt p1 w0))
    /\ (forall w0, sent w0 = (sent w ++ [p1])%list ->
          PromptEngineeringCoach.design E t1 category input_data w0 =
          (Return t2, record_prompt p2 w0))
    /\ (forall w0, sent w0 = (sent w ++ [p1; p2])%list ->
          ImplementationCoach.implement E t2 category input_data w0 =
          (Return t3, record_prompt p3 w0))
    /\ ((exists ts w',
           now E = Return ts
           /\ VibeCodingTeam.advice_steps E category input_data w =
              (Return [("concept", t1); ("prompt", t2); ("implementation", t3)],
               w')
           /\ sent w' = (sent w ++ [p1; p2; p3])%list
           /\ workflow_logs w' =
              (workflow_logs w ++
               [{| service_type := category;
                   timestamp := ts;
                   coaches_involved :=
                     ["ConceptCoach"; "PromptEngineeringCoach";
                      "ImplementationCoach"];
                   steps :=
                     [{| coach := "ConceptCoach";
                         action := "concept_explanation";
                         status := "success";
                         error := None |};
                      {| coach := "PromptEngineeringCoach";
                         action := "prompt_design";
                         status := "success";
                         error := None |};
                      {| coach := "ImplementationCoach";
                         action := "implementation";
                         status := "success";
                         error := None |}] |}])%list)
        \/ (exists e w' k,
              k <= 2
              /\ VibeCodingTeam.advice_steps E category input_data w =
                 (Raise e, w')
              /\ sent w' = (sent w ++ firstn k [p1; p2; p3])%list
              /\ workflow_logs w' = workflow_logs w)).
Proof.
  destruct (run_stage_returns E Explain "" category input_data (sent w))
    as (t1 & H1).
  destruct (run_stage_returns E Design t1 category input_data
              (sent w ++ [stage_prompt E Explain "" category input_data]))
    as (t2 & H2).
  destruct (run_stage_returns E Implement t2 category input_data
              (sent w ++ [stage_prompt E Explain "" category input_data;
                          stage_prompt E Design t1 category input_data]))
    as (t3 & H3).
  cbv [run_stage] in H1, H2, H3.
  exists t1, t2, t3. cbv zeta.
  split; [exact H1 |]. split; [exact H2 |]. split; [exact H3 |].
  cbv [VibeCodingTeam.advice_steps bind datetime_now st_markdown st_spinner
       try_except ret workflow_logs_append st_error].
  destruct (now E) as [ts | e];
    [| right; exists e, w, 0; cbn [firstn]; rewrite app_nil_r; auto with arith].
  repeat
    match goal with
    | |- context [st_fault E ?ev] =>
        destruct (st_fault E ev) as [?e |] eqn:?
    end.
  all: try rewrite H1 by reflexivity.
  all: try rewrite H2 by reflexivity.
  all: try rewrite H3 by (cbn [sent record_prompt display]; rewrite <- app_assoc; reflexivity).
  all: first
    [ left; eexists _, _; split; [reflexivity |]; split; [reflexivity |];
      split; world_eq
    | right; eexists _, _, 0; split; [lia |]; split; [reflexivity |];
      split; world_eq
    | right; eexists _, _, 1; split; [lia |]; split; [reflexivity |];
      split; world_eq
    | right; eexists _, _, 2; split; [lia |]; split; [reflexivity |];
      split; world_eq ].
Qed.

(** The same run, seen from the caller of [get_coding_advice]. *)
Lemma get_coding_advice_run (E : env) (category : string) (input_data : dict)
  (w : world) :
  exists t1 t2 t3,
    let p1 := stage_prompt E Explain "" category input_data in
    let p2 := stage_prompt E Design t1 category input_data in
    let p3 := stage_prompt E Implement t2 category input_data in
    (forall w0, sent w0 = sent w ->
       ConceptCoach.explain E category input_data w0 =
       (Return t1, record_prompt p1 w0))
    /\ (forall w0, sent w0 = (sent w ++ [p1])%list ->
          PromptEngineeringCoach.design E t1 category input_data w0 =
          (Return t2, record_prompt p2 w0))
    /\ (forall w0, sent w0 = (sent w ++ [p1; p2])%list ->
          ImplementationCoach.implement E t2 category input_data w0 =
          (Return t3, record_prompt p3 w0))
    /\ ((exists r w1 entry w',
           VibeCodingTeam.advice_steps E category input_data w = (Return r, w1)
           /\ VibeCodingTeam.get_coding_advice E category input_data w =
              (Return [("concept", t1); ("prompt", t2); ("implementation", t3)],
               w')
           /\ sent w' = (sent w ++ [p1; p2; p3])%list
           /\ workflow_logs w' = (workflow_logs w ++ [entry])%list
           /\ map coach (steps entry) =
              ["ConceptCoach"; "PromptEngineeringCoach"; "ImplementationCoach"]
           /\ map status (steps entry) = ["success"; "success"; "success"]
           /\ map error (steps entry) = [None; None; None])
        \/ (exists e w1 w' k,
              k <= 2
              /\ VibeCodingTeam.advice_steps E category input_data w =
                 (Raise e, w1)
              /\ VibeCodingTeam.get_coding_advice E category input_data w =
                 (Return [("concept", VibeCodingTeam.system_error);
                          ("prompt", VibeCodingTeam.system_error);
                          ("implementation", VibeCodingTeam.system_error)],
                  w')
              /\ sent w' = (sent w ++ firstn k [p1; p2; p3])%list
              /\ workflow_logs w' = workflow_logs w)).
Proof.
  destruct (advice_steps_run E category input_data w)
    as (t1 & t2 & t3 & H1 & H2 & H3 & H).
  exists t1, t2, t3. cbv zeta.
  split; [exact H1 |]. split; [exact H2 |]. split; [exact H3 |].
  cbv [VibeCodingTeam.get_coding_advice try_except].
  destruct H as [(ts & w' & _ & Hrun & Hsent & Hlogs)
                | (e & w' & k & Hk & Hrun & Hsent & Hlogs)];
    rewrite Hrun.
  - left. eexists _, _, _, w'.
    split; [reflexivity |]. split; [reflexivity |]. split; [exact Hsent |].
    split; [exact Hlogs |]. repeat split.
  - right. eexists e, w', _, k.
    split; [exact Hk |]. split; [reflexivity |]. split; [reflexivity |].
    split; [exact Hsent | exact Hlogs].
Qed.

(** Once the clock has returned and the headings and spinners of the
    first [n] stages have been shown, the model has been called for
    these [n] stages at least. *)
Lemma calls_after_progress (E : env) (category : string) (input_data : dict)
  (w : world) (ts : string) (n : nat) :
  now E = Return ts ->
  n <= 3 ->
  Forall (fun ev => st_fault E ev = None) (firstn (2 * n) progress_events) ->
  length (sent w) + n <=
  length (sent (snd (VibeCodingTeam.get_coding_advice E category input_data w))).
Proof.
  intros Hnow Hn Hshown.
  destruct (run_stage_returns E Explain "" category input_data (sent w))
    as (t1 & H1).
  destruct (run_stage_returns E Design t1 category input_data
              (sent w ++ [stage_prompt E Explain "" category input_data]))
    as (t2 & H2).
  destruct (run_stage_returns E Implement t2 category input_data
              (sent w ++ [stage_prompt E Explain "" category input_data;
                          stage_prompt E Design t1 category input_data]))
    as (t3 & H3).
  cbv [run_stage] in H1, H2, H3.
  cbv [VibeCodingTeam.get_coding_advice VibeCodingTeam.advice_steps bind
       datetime_now st_markdown st_spinner try_except ret workflow_logs_append
       st_error].
  rewrite Hnow.
  do 4 (destruct n as [| n];
        [cbn [Nat.mul Nat.add firstn progress_events] in Hshown;
         repeat match goal with
           | H : Forall _ (_ :: _) |- _ =>
               apply Forall_cons_iff in H; destruct H as [?Hok H]
           end;
         repeat match goal with
           | H : st_fault E _ = None |- _ => rewrite H; clear H
           end;
         repeat match goal with
           | |- context [st_fault E ?ev] =>
               destruct (st_fault E ev) as [?e |] eqn:?
           end;
         try rewrite H1 by reflexivity;
         try rewrite H2 by reflexivity;
         try rewrite H3
           by (cbn [sent record_prompt display]; rewrite <- app_assoc;
               reflexivity);
         cbn [fst snd sent screen workflow_logs record_prompt display
              store_log];
         rewrite ?length_app; cbn [Datatypes.length]; lia |]).
  lia.
Qed.

(** C1: the coordinator hands the text each stage returned to the next
    stage as it is.  In a run of [get_coding_advice], [t1] is the text
    the explain stage returns and [t2] the text the design stage returns
    when given [t1]; the prompts the model receives are, in order, the
    explain prompt, the design prompt built from [t1] and the implement
    prompt built from [t2]: the first [k] of them, where [k] is at least
    the number of stages whose heading and spinner were shown, so all
    three when the clock and every progress call of the page returned
    (only a raising clock or progress call cuts the run short).  The
    design prompt contains [t1] and the implement prompt contains [t2].
    This holds whatever the model does: when the call of a stage raises
    [e], the text of that stage is its fixed error message followed by
    [e], and it is this message that the next prompt contains. *)
Theorem stage_outputs_feed_next_prompts (E : env) (category : string)
  (input_data : dict) (w : world) :
  exists t1 t2 t3 k,
    let p1 := stage_prompt E Explain "" category input_data in
    let p2 := stage_prompt E Design t1 category input_data in
    let p3 := stage_prompt E Implement t2 category input_data in
    (forall w0, sent w0 = sent w ->
       ConceptCoach.explain E category input_data w0 =
       (Return t1, record_prompt p1 w0))
    /\ (forall w0, sent w0 = (sent w ++ [p1])%list ->
          PromptEngineeringCoach.design E t1 category input_data w0 =
          (Return t2, record_prompt p2 w0))
    /\ (forall w0, sent w0 = (sent w ++ [p1; p2])%list ->
          ImplementationCoach.implement E t2 category input_data w0 =
          (Return t3, record_prompt p3 w0))
    /\ k <= 3
    /\ sent (snd (VibeCodingTeam.get_coding_advice E category input_data w)) =
       (sent w ++ firstn k [p1; p2; p3])%list
    /\ Text.contains t1 p2
    /\ Text.contains t2 p3
    /\ (k = 3 ->
        fst (VibeCodingTeam.get_coding_advice E category input_data w) =
        Return [("concept", t1); ("prompt", t2); ("implementation", t3)])
    /\ (forall e, call_raises E (sent w) p1 e ->
        t1 = failure_prefix Explain ++ e)
    /\ (forall e, call_raises E (sent w ++ [p1])%list p2 e ->
        t2 = failure_prefix Design ++ e)
    /\ (forall ts n,
          now E = Return ts ->
          n <= 3 ->
          Forall (fun ev => st_fault E ev = None)
            (firstn (2 * n) progress_events) ->
          n <= k)
    /\ (forall ts,
          now E = Return ts ->
          (forall ev, st_fault E ev = None) ->
          k = 3
          /\ VibeCodingTeam.get_coding_advice E category input_data w =
             (Return [("concept", t1); ("prompt", t2); ("implementation", t3)],
              snd (VibeCodingTeam.get_coding_advice E category input_data w))
          /\ sent (snd (VibeCodingTeam.get_coding_advice E category
                          input_data w)) =
             (sent w ++ [p1; p2; p3])%list).
Proof.
  destruct (get_coding_advice_run E category input_data w)
    as (t1 & t2 & t3 & H1 & H2 & H3 & H).
  assert (Hc1 : Text.contains t1 (stage_prompt E Design t1 category input_data))
    by (cbv [stage_prompt PromptEngineeringCoach.design_prompt];
        auto 8 with text).
  assert (Hc2 : Text.contains t2 (stage_prompt E Implement t2 category input_data))
    by (cbv [stage_prompt ImplementationCoach.implement_prompt];
        auto 8 with text).
  assert (He1 : forall e,
             call_raises E (sent w)
               (stage_prompt E Explain "" category input_data) e ->
             t1 = failure_prefix Explain ++ e).
  { intros e He.
    destruct (stage_runner_catches_call_failure_aux E Explain "" category
                input_data w e He) as (t & Hrun & ->).
    rewrite <- explain_is_stage, (H1 w eq_refl) in Hrun. congruence. }
  assert (He2 : forall e,
             call_raises E
               (sent w ++ [stage_prompt E Explain "" category input_data])%list
               (stage_prompt E Design t1 category input_data) e ->
             t2 = failure_prefix Design ++ e).
  { intros e He.
    pose (w0 := record_prompt (stage_prompt E Explain "" category input_data) w).
    destruct (stage_runner_catches_call_failure_aux E Design t1 category
                input_data w0 e He) as (t & Hrun & ->).
    cbv [run_stage] in Hrun. rewrite (H2 w0 eq_refl) in Hrun. congruence. }
  assert (Hreach : forall k,
             k <= 3 ->
             sent (snd (VibeCodingTeam.get_coding_advice E category
                          input_data w)) =
             (sent w ++
              firstn k [stage_prompt E Explain "" category input_data;
                        stage_prompt E Design t1 category input_data;
                        stage_prompt E Implement t2 category input_data])%list ->
             forall ts n,
               now E = Return ts ->
               n <= 3 ->
               Forall (fun ev => st_fault E ev = None)
                 (firstn (2 * n) progress_events) ->
               n <= k).
  { intros k Hk Hsent ts n Hnow Hn Hshown.
    pose proof (calls_after_progress E category input_data w ts n Hnow Hn
                  Hshown) as Hlen.
    rewrite Hsent, length_app, length_firstn in Hlen.
    cbn [Datatypes.length] in Hlen. lia. }
  destruct H as [(r & w1 & entry & w' & _ & Hrun & Hsent & _)
                | (e & w1 & w' & k & Hk & _ & Hrun & Hsent & _)].
  - exists t1, t2, t3, 3. cbv zeta.
    assert (Hsent' : sent (snd (VibeCodingTeam.get_coding_advice E category
                                  input_data w)) =
                     (sent w ++
                      [stage_prompt E Explain "" category input_data;
                       stage_prompt E Design t1 category input_data;
                       stage_prompt E Implement t2 category input_data])%list)
      by (now rewrite Hrun).
    refine (conj H1 (conj H2 (conj H3 (conj _ (conj Hsent' (conj Hc1
              (conj Hc2 (conj _ (conj He1 (conj He2 (conj _ _)))))))))));
      [lia | | |].
    + intros _. now rewrite Hrun.
    + intros ts n _ Hn _. exact Hn.
    + intros ts _ _. split; [reflexivity |]. split; [| exact Hsent'].
      now rewrite Hrun.
  - exists t1, t2, t3, k. cbv zeta.
    assert (Hsent' : sent (snd (VibeCodingTeam.get_coding_advice E category
                                  input_data w)) =
                     (sent w ++
                      firstn k
                        [stage_prompt E Explain "" category input_data;
                         stage_prompt E Design t1 category input_data;
                         stage_prompt E Implement t2 category input_data])%list)
      by (now rewrite Hrun).
    assert (Hk3 : k <= 3) by lia.
    refine (conj H1 (conj H2 (conj H3 (conj Hk3 (conj Hsent' (conj Hc1
              (conj Hc2 (conj _ (conj He1 (conj He2 (conj _ _))))))))))).
    + intros ->. lia.
    + exact (Hreach k Hk3 Hsent').
    + intros ts Hnow Hnone. exfalso.
      assert (H3k : 3 <= k).
      { apply (Hreach k Hk3 Hsent' ts 3 Hnow); [lia |].
        apply Forall_forall. intros ev _. apply Hnone. }
      lia.
Qed.

(** A run in which the clock and the page work: the model receives the
    three prompts, also when every call to it fails. *)
Example ordinary_run_sends_three_prompts :
  length
    (sent
       (snd (VibeCodingTeam.get_coding_advice
               (plain_env (failing_model "quota")
                  (Return "2025-01-01 00:00:00") no_fault)
               "개념 이해" (concept_input_data "What is it?" "beginner")
               empty_world))) = 3.
Proof. vm_compute. reflexivity. Qed.

(** Every step the coordinator stores has the status success and no
    error detail, whatever the calls to the model did: a stage runner
    returns its error message instead of raising, so the handlers of the
    coordinator that store the status error are never entered. *)
Lemma stored_steps_all_success (E : env) (category : string)
  (input_data : dict) (w : world) :
  exists added,
    workflow_logs (snd (VibeCodingTeam.get_coding_advice E category input_data w)) =
    (workflow_logs w ++ added)%list
    /\ Forall (fun entry =>
                 Forall (fun s => status s = "success" /\ error s = None)
                   (steps entry))
         added.
Proof.
  destruct (get_coding_advice_run E category input_data w)
    as (t1 & t2 & t3 & _ & _ & _ &
        [(r & w1 & entry & w' & _ & Hrun & _ & Hlogs & _ & Hstatus & Herror)
        | (e & w1 & w' & k & _ & _ & Hrun & _ & Hlogs)]);
    rewrite Hrun; cbn [snd].
  - exists [entry]. split; [exact Hlogs |].
    constructor; [| constructor].
    destruct (steps entry) as [| s1 [| s2 [| s3 [| s4 rest]]]];
      try discriminate.
    cbn [map] in Hstatus, Herror.
    injection Hstatus as Hs1 Hs2 Hs3. injection Herror as He1 He2 He3.
    repeat (apply Forall_cons; [split; assumption |]). apply Forall_nil.
  - exists []. rewrite app_nil_r. split; [exact Hlogs | constructor].
Qed.

(** C2 (what the code does): with a model whose every call raises, the
    three stages return their error messages and the coordinator stores
    one log entry whose three steps all have the status success and no
    error detail. *)
Theorem failed_calls_are_logged_as_success :
  call_raises
    (plain_env (failing_model "quota") (Return "2025-01-01 00:00:00") no_fault)
    (sent empty_world)
    (stage_prompt
       (plain_env (failing_model "quota") (Return "2025-01-01 00:00:00") no_fault)
       Explain "" "개념 이해" [("question", "q")])
    "quota"
  /\ fst (VibeCodingTeam.get_coding_advice
            (plain_env (failing_model "quota") (Return "2025-01-01 00:00:00") no_fault)
            "개념 이해" [("question", "q")] empty_world) =
     Return [("concept", failure_prefix Explain ++ "quota");
             ("prompt", failure_prefix Design ++ "quota");
             ("implementation", failure_prefix Implement ++ "quota")]
  /\ map (fun entry => map (fun s => (coach s, status s, error s)) (steps entry))
       (workflow_logs
          (snd (VibeCodingTeam.get_coding_advice
                  (plain_env (failing_model "quota") (Return "2025-01-01 00:00:00") no_fault)
                  "개념 이해" [("question", "q")] empty_world))) =
     [[("ConceptCoach", "success", None);
       ("PromptEngineeringCoach", "success", None);
       ("ImplementationCoach", "success", None)]].
Proof.
  split; [left; reflexivity |]. split; vm_compute; reflexivity.
Qed.

(** C3: when an exception leaves the body of the outer [try] of the
    coordinator (it escaped the three stage-level handlers), the
    coordinator returns the result whose three fields hold the one
    system-error text, the exception does not reach the caller, and the
    workflow log is as it was before the run. *)
Theorem catch_all_returns_uniform_error (E : env) (category : string)
  (input_data : dict) (w : world) (e : string) (w1 : world) :
  VibeCodingTeam.advice_steps E category input_data w = (Raise e, w1) ->
  exists w',
    VibeCodingTeam.get_coding_advice E category input_data w =
    (Return [("concept", VibeCodingTeam.system_error);
             ("prompt", VibeCodingTeam.system_error);
             ("implementation", VibeCodingTeam.system_error)],
     w')
    /\ workflow_logs w' = workflow_logs w.
Proof.
  intros Hraise.
  destruct (get_coding_advice_run E category input_data w)
    as (t1 & t2 & t3 & _ & _ & _ &
        [(r & w2 & entry & w' & Hsteps & _)
        | (e' & w2 & w' & k & _ & _ & Hrun & _ & Hlogs)]).
  - rewrite Hsteps in Hraise. discriminate.
  - exists w'. split; assumption.
Qed.

Lemma catch_all_returns_uniform_error_witness :
  VibeCodingTeam.advice_steps
    (plain_env (constant_model (Some "answer")) (Raise "no clock") no_fault)
    "코드 생성" [("code_request", "sort"); ("programming_language", "Python")]
    empty_world = (Raise "no clock", empty_world)
  /\ exists w',
       VibeCodingTeam.get_coding_advice
         (plain_env (constant_model (Some "answer")) (Raise "no clock") no_fault)
         "코드 생성" [("code_request", "sort"); ("programming_language", "Python")]
         empty_world =
       (Return [("concept", VibeCodingTeam.system_error);
                ("prompt", VibeCodingTeam.system_error);
                ("implementation", VibeCodingTeam.system_error)],
        w')
       /\ workflow_logs w' = workflow_logs empty_world.
Proof.
  split; [reflexivity |].
  exact (catch_all_returns_uniform_error
           (plain_env (constant_model (Some "answer")) (Raise "no clock") no_fault)
           "코드 생성" [("code_request", "sort"); ("programming_language", "Python")]
           empty_world "no clock" empty_world eq_refl).
Defined.

(** C4: for every category and request, whatever the model, the clock
    and the page do (no stage fails, some fail, all fail, or the outer
    handler is entered), [get_coding_advice] returns, and what it
    returns has exactly the three fields concept, prompt and
    implementation, in this order. *)
Theorem get_coding_advice_returns_three_fields (E : env) (category : string)
  (input_data : dict) (w : world) :
  exists res w',
    VibeCodingTeam.get_coding_advice E category input_data w = (Return res, w')
    /\ keys res = ["concept"; "prompt"; "implementation"].
Proof.
  destruct (get_coding_advice_run E category input_data w)
    as (t1 & t2 & t3 & _ & _ & _ &
        [(r & w1 & entry & w' & _ & Hrun & _)
        | (e & w1 & w' & k & _ & _ & Hrun & _)]);
    eexists _, w'; (split; [exact Hrun | reflexivity]).
Qed.

(** C10: a run of the coordinator only appends to the workflow log; a
    run whose outer [try] body returns (the outer handler is not
    entered) appends exactly one entry, and the steps of that entry are
    three records, for ConceptCoach, PromptEngineeringCoach and
    ImplementationCoach in this order, each with the status success or
    error. *)
Theorem workflow_log_grows_by_one_entry (E : env) (category : string)
  (input_data : dict) (w : world) :
  (exists added,
     workflow_logs (snd (VibeCodingTeam.get_coding_advice E category input_data w)) =
     (workflow_logs w ++ added)%list)
  /\ forall r w1,
       VibeCodingTeam.advice_steps E category input_data w = (Return r, w1) ->
       exists entry,
         workflow_logs
           (snd (VibeCodingTeam.get_coding_advice E category input_data w)) =
         (workflow_logs w ++ [entry])%list
         /\ map coach (steps entry) =
            ["ConceptCoach"; "PromptEngineeringCoach"; "ImplementationCoach"]
         /\ Forall (fun s => status s = "success" \/ status s = "error")
              (steps entry).
Proof.
  destruct (get_coding_advice_run E category input_data w)
    as (t1 & t2 & t3 & _ & _ & _ &
        [(r & w1 & entry & w' & Hsteps & Hrun & _ & Hlogs & Hcoach & Hstatus & _)
        | (e & w1 & w' & k & _ & Hsteps & Hrun & _ & Hlogs)]);
    rewrite Hrun; cbn [snd]; split.
  - now exists [entry].
  - intros _ _ _. exists entry.
    split; [exact Hlogs |]. split; [exact Hcoach |].
    destruct (steps entry) as [| s1 [| s2 [| s3 [| s4 rest]]]];
      try discriminate.
    cbn [map] in Hstatus. injection Hstatus as Hs1 Hs2 Hs3.
    repeat (apply Forall_cons; [left; assumption |]). apply Forall_nil.
  - exists []. now rewrite app_nil_r.
  - intros r w2 Hreturn. rewrite Hsteps in Hreturn. discriminate.
Qed.

(** A run in which the outer handler is not entered: the log that was
    empty holds one entry afterwards. *)
Example ordinary_run_stores_one_entry :
  exists r w1,
    VibeCodingTeam.advice_steps
      (plain_env (constant_model (Some "answer")) (Return "2025-01-01 00:00:00") no_fault)
      "학습 계획" [("current_level", "beginner")] empty_world = (Return r, w1)
    /\ length (workflow_logs w1) = 1.
Proof.
  eexists _, _. split; [vm_compute; reflexivity | reflexivity].
Qed.
(** ** Characters and texts *)

Lemma text_app (a b : list string) :
  Unicode.text (a ++ b) = Unicode.text a ++ Unicode.text b.
Proof.
  induction a as [| c a IH]; cbn [app Unicode.text]; [reflexivity |].
  now rewrite IH, append_assoc.
Qed.

(** Putting the characters of a text together gives the text back. *)
Lemma text_chars (s : string) : Unicode.text (Unicode.chars s) = s.
Proof.
  induction s as [| b s IH]; [reflexivity |].
  cbn [Unicode.chars].
  destruct (Unicode.chars s) as [| c cs].
  - cbn [Unicode.text] in *. now rewrite <- IH.
  - destruct c as [| b' c'].
    + cbn [Unicode.text append] in *. now rewrite IH.
    + destruct (Unicode.is_continuation b');
        cbn [Unicode.text append] in *; now rewrite IH.
Qed.

(** All characters of a text are whole, except that the first one lacks
    its first byte when the text starts with a continuation byte. *)
Lemma chars_whole (s : string) :
  match Unicode.chars s with
  | [] => True
  | c :: cs =>
      match c with
      | "" => False
      | String _ r => Text.all_chars Unicode.is_continuation r = true
      end
      /\ Forall (fun t => whole_char t = true) cs
  end.
Proof.
  induction s as [| b s IH]; [exact I |].
  cbn [Unicode.chars].
  destruct (Unicode.chars s) as [| c cs].
  - split; [reflexivity | constructor].
  - destruct IH as [Hc Hcs]. destruct c as [| b' r]; [contradiction |].
    destruct (Unicode.is_continuation b') eqn:Hb'.
    + split; [| exact Hcs]. cbn [Text.all_chars]. now rewrite Hb', Hc.
    + split; [reflexivity |]. constructor; [| exact Hcs].
      cbn [whole_char]. now rewrite Hb', Hc.
Qed.

Lemma chars_whole_tail (s : string) :
  Forall (fun t => whole_char t = true) (tl (Unicode.chars s)).
Proof.
  pose proof (chars_whole s) as H.
  destruct (Unicode.chars s) as [| c cs]; [constructor | apply H].
Qed.

Lemma chars_after_whole (b : ascii) (r : string) (cs : list string) :
  Text.all_chars Unicode.is_continuation r = true ->
  Forall (fun t => whole_char t = true) cs ->
  Unicode.chars (Unicode.text cs) = cs ->
  Unicode.chars (String b (r ++ Unicode.text cs)) = String b r :: cs.
Proof.
  intros Hr Hcs Hround. revert b.
  induction r as [| b1 r1 IH]; intros b.
  - cbn [append Unicode.chars]. rewrite Hround.
    destruct cs as [| c cs']; [reflexivity |].
    inversion Hcs as [| ? ? Hc _]; subst.
    destruct c as [| b' r']; [discriminate |].
    cbn [whole_char] in Hc. apply andb_prop in Hc as [Hb' _].
    apply negb_true_iff in Hb'. now rewrite Hb'.
  - cbn [Text.all_chars] in Hr. apply andb_prop in Hr as [Hb1 Hr1].
    cbn [append]. change (Unicode.chars (String b (String b1 (r1 ++ Unicode.text cs))))
      with (match Unicode.chars (String b1 (r1 ++ Unicode.text cs)) with
            | [] => [String b ""]
            | c :: cs0 =>
                match c with
                | "" => String b "" :: c :: cs0
                | String b' _ =>
                    if Unicode.is_continuation b' then String b c :: cs0
                    else String b "" :: c :: cs0
                end
            end).
    rewrite (IH Hr1 b1). now rewrite Hb1.
Qed.

(** The characters of a text put together from whole characters are
    these characters. *)
Lemma chars_text (cs : list string) :
  Forall (fun t => whole_char t = true) cs ->
  Unicode.chars (Unicode.text cs) = cs.
Proof.
  induction 1 as [| c cs Hc Hcs IH]; [reflexivity |].
  destruct c as [| b r]; [discriminate |].
  cbn [whole_char] in Hc. apply andb_prop in Hc as [_ Hr].
  cbn [Unicode.text append]. now apply chars_after_whole.
Qed.

(** ** Matching the code pattern *)

Lemma strip_inv (lit input rest : list string) :
  Re.strip lit input = Some rest -> input = (lit ++ rest)%list.
Proof.
  revert input. induction lit as [| c lit IH]; intros input H; cbn in *.
  - now injection H as ->.
  - destruct input as [| d input]; [discriminate |].
    destruct (String.eqb_spec c d) as [<- |]; [| discriminate].
    now rewrite (IH _ H).
Qed.

Lemma consumed_append (a b : list string) : Re.consumed (a ++ b) b = a.
Proof.
  unfold Re.consumed. rewrite length_app.
  replace (length a + length b - length b) with (length a) by lia.
  induction a as [| c a IH]; cbn [length app firstn].
  - now destruct b.
  - now rewrite IH.
Qed.

Lemma exec_cat {R : Type} (r1 r2 : Re.regex) (input : list string)
  (g : option (list string))
  (k : list string -> option (list string) -> option R) :
  Re.exec (Re.Cat r1 r2) input g k =
  Re.exec r1 input g (fun rest g' => Re.exec r2 rest g' k).
Proof. reflexivity. Qed.

Lemma exec_str {R : Type} (s : string) (input : list string)
  (g : option (list string))
  (k : list string -> option (list string) -> option R) :
  Re.exec (Re.Str s) input g k =
  match Re.strip (Unicode.chars s) input with
  | Some rest => k rest g
  | None => None
  end.
Proof. reflexivity. Qed.

Lemma exec_group {R : Type} (r : Re.regex) (input : list string)
  (g : option (list string))
  (k : list string -> option (list string) -> option R) :
  Re.exec (Re.Group r) input g k =
  Re.exec r input g (fun rest _ => k rest (Some (Re.consumed input rest))).
Proof. reflexivity. Qed.

Lemma plus_greedy_inv {R : Type} (p : string -> bool) (input : list string)
  (k : list string -> option R) (x : R) :
  Re.plus_greedy p input k = Some x ->
  exists run rest,
    input = (run ++ rest)%list /\ run <> []
    /\ forallb p run = true /\ k rest = Some x.
Proof.
  induction input as [| c input IH]; [discriminate |].
  cbn [Re.plus_greedy]. destruct (p c) eqn:Hc; [| discriminate].
  destruct (Re.plus_greedy p input k) as [y |] eqn:Hmore.
  - intros Hx. injection Hx as ->.
    destruct (IH eq_refl) as (run & rest & -> & _ & Hrun & Hk).
    exists (c :: run), rest.
    repeat split; [discriminate | | exact Hk].
    cbn [forallb]. now rewrite Hc.
  - intros Hk. exists [c], input.
    repeat split; [discriminate | | exact Hk].
    cbn [forallb]. now rewrite Hc.
Qed.

Lemma plus_lazy_inv {R : Type} (p : string -> bool) (input : list string)
  (k : list string -> option R) (x : R) :
  Re.plus_lazy p input k = Some x ->
  exists run rest,
    input = (run ++ rest)%list /\ run <> [] /\ k rest = Some x.
Proof.
  induction input as [| c input IH]; [discriminate |].
  cbn [Re.plus_lazy]. destruct (p c); [| discriminate].
  destruct (k input) as [y |] eqn:Hk.
  - intros Hx. injection Hx as ->.
    exists [c], input. repeat split; [discriminate | exact Hk].
  - intros Hmore. destruct (IH Hmore) as (run & rest & -> & _ & Hrest).
    exists (c :: run), rest. repeat split; [discriminate | exact Hrest].
Qed.

(** Where the pattern matches, the input starts with the characters of
    an opening line whose tag is made of word characters (or is absent),
    then the group, which is not empty, then a closing line. *)
Lemma match_here_sound (isalnum : string -> bool)
  (input g rest : list string) :
  Re.match_here (code_pattern isalnum) input = Some (g, rest) ->
  exists tagchars,
    input = (Unicode.chars fence ++ tagchars ++ Unicode.chars Text.nl ++ g
             ++ Unicode.chars (Text.nl ++ fence) ++ rest)%list
    /\ forallb (Re.word_char isalnum) tagchars = true
    /\ g <> [].
Proof.
  unfold Re.match_here, code_pattern.
  rewrite exec_cat, exec_str.
  destruct (Re.strip (Unicode.chars fence) input) as [r1 |] eqn:Hfence;
    [| discriminate].
  apply strip_inv in Hfence as ->.
  rewrite exec_cat. intros Hopt.
  assert (Htag : exists tagchars r2,
             r1 = (tagchars ++ r2)%list
             /\ forallb (Re.word_char isalnum) tagchars = true
             /\ Re.exec
                  (Re.Cat (Re.Str Text.nl)
                     (Re.Cat (Re.Group (Re.LazyPlus Re.any_char))
                        (Re.Str (Text.nl ++ fence))))
                  r2 None
                  (fun rest0 g0 =>
                     Some (match g0 with Some cs => cs | None => [] end,
                           rest0)) =
                Some (g, rest)).
  { cbn [Re.exec] in Hopt.
    destruct (Re.plus_greedy (Re.word_char isalnum) r1 _) as [y |] eqn:Hrun.
    - injection Hopt as ->.
      apply plus_greedy_inv in Hrun as (run & r2 & -> & _ & Hword & Hk).
      exists run, r2. repeat split; assumption.
    - exists [], r1. repeat split. exact Hopt. }
  destruct Htag as (tagchars & r2 & -> & Hword & Hrest).
  exists tagchars.
  rewrite exec_cat, exec_str in Hrest.
  destruct (Re.strip (Unicode.chars Text.nl) r2) as [r3 |] eqn:Hnl;
    [| discriminate].
  apply strip_inv in Hnl as ->.
  rewrite exec_cat, exec_group in Hrest. cbn [Re.exec] in Hrest.
  apply plus_lazy_inv in Hrest as (run & r4 & -> & Hrun & Hclose).
  destruct (Re.strip (Unicode.chars (Text.nl ++ fence)) r4) as [r5 |] eqn:Hend;
    [| discriminate].
  apply strip_inv in Hend as ->.
  rewrite consumed_append in Hclose.
  injection Hclose as <- <-.
  split; [reflexivity |]. split; assumption.
Qed.

(** ** Fenced blocks with a tag that holds a symbol *)

(** C8 (what the code does): a fenced block whose tag is [c++] is not
    extracted, so no download is offered for a text that holds one
    block; and of a text with two blocks tagged [c#], the language the
    selector of [main] offers as C#, the download is the prose between
    the two blocks, under a name that ends in [.cs].  The description
    asks for the bodies of all fenced blocks, whatever their tag. *)
Theorem symbol_tagged_blocks_are_not_extracted (isalnum : string -> bool) :
  (render_text "" [({| tag := "c++"; body := "int x;" |}, "")] =
   "```c++" ++ Text.nl ++ "int x;" ++ Text.nl ++ "```"
   /\ expected_download [({| tag := "c++"; body := "int x;" |}, "")] =
      Some "int x;"
   /\ code_matches isalnum
        (render_text "" [({| tag := "c++"; body := "int x;" |}, "")]) = []
   /\ combined_code isalnum
        (render_text "" [({| tag := "c++"; body := "int x;" |}, "")]) = None)
  /\ (expected_download
        [({| tag := "c#"; body := "A" |}, Text.nl ++ "text" ++ Text.nl);
         ({| tag := "c#"; body := "B" |}, "")] =
      Some ("A" ++ Text.nl ++ Text.nl ++ "B")
      /\ combined_code isalnum
           (render_text ""
              [({| tag := "c#"; body := "A" |}, Text.nl ++ "text" ++ Text.nl);
               ({| tag := "c#"; body := "B" |}, "")]) = Some "text"
      /\ In "C#" programming_languages
      /\ filename (plain_env (constant_model None) (Return "") no_fault) "C#" =
         "vibe_coding_c#_code.cs").
Proof.
  repeat split; try reflexivity. cbn. tauto.
Qed.

(** The example of the description: two blocks, the first tagged
    python, give the two bodies with a blank line between them; a text
    without a fence gives nothing. *)
Example two_blocks_are_joined (isalnum : string -> bool) :
  combined_code isalnum (render_text "Run this:" two_blocks) =
  Some ("print(" ++ dquote ++ "a" ++ dquote ++ ")" ++ Text.nl ++ Text.nl
        ++ "print(" ++ dquote ++ "b" ++ dquote ++ ")")
  /\ combined_code isalnum "No code here." = None.
Proof. split; reflexivity. Qed.

(** ** The file extension *)

Lemma get_in (d : dict) (key value default : string) :
  NoDup (keys d) -> In (key, value) d -> get d key default = value.
Proof.
  induction d as [| [k v] d IH]; intros Hnodup Hin; [contradiction |].
  cbn [keys map fst] in Hnodup. inversion Hnodup as [| ? ? Hfresh Hrest]; subst.
  cbn [get]. destruct Hin as [Heq | Hin].
  - injection Heq as -> ->. now rewrite String.eqb_refl.
  - destruct (String.eqb_spec k key) as [-> |]; [| now apply IH].
    exfalso. apply Hfresh. change key with (fst (key, value)).
    now apply in_map.
Qed.

Lemma get_not_in (d : dict) (key default : string) :
  ~ In key (keys d) -> get d key default = default.
Proof.
  induction d as [| [k v] d IH]; intros Hfresh; [reflexivity |].
  cbn [get]. destruct (String.eqb_spec k key) as [-> |].
  - exfalso. apply Hfresh. now left.
  - apply IH. intros Hin. apply Hfresh. now right.
Qed.

(** The table is a dictionary: no key occurs twice. *)
Lemma extensions_keys_distinct : NoDup (keys extensions).
Proof.
  cbn [keys extensions map fst].
  repeat (apply NoDup_cons;
          [cbn [In]; intuition discriminate |]).
  apply NoDup_nil.
Qed.

(** C9: the lookup of the file extension returns for every string; it
    depends on the string only through its lowercase form; when that
    form is a key of the table the result is the extension the table
    gives for it, and otherwise it is txt.  With a [lower] that lowers
    ASCII letters, Python gives py, TypeScript gives ts and Elixir gives
    txt. *)
Theorem get_file_extension_total_case_insensitive (E : env) :
  (forall s, Text.all_chars Text.is_ascii s = true ->
     lower E s = ascii_lower s) ->
  (forall language extension,
     In (lower E language, extension) extensions ->
     get_file_extension E language = extension)
  /\ (forall language,
        ~ In (lower E language) (keys extensions) ->
        get_file_extension E language = "txt")
  /\ (forall a b, lower E a = lower E b ->
        get_file_extension E a = get_file_extension E b)
  /\ get_file_extension E "Python" = "py"
  /\ get_file_extension E "TypeScript" = "ts"
  /\ get_file_extension E "Elixir" = "txt"
  /\ get_file_extension E "PYTHON" = get_file_extension E "python".
Proof.
  intros Hlower. unfold get_file_extension.
  split; [| split; [| split]].
  - intros language extension Hin.
    now apply get_in; [apply extensions_keys_distinct |].
  - intros language Hout. now apply get_not_in.
  - intros a b Hab. now rewrite Hab.
  - rewrite !Hlower by reflexivity. repeat split.
Qed.

Lemma get_file_extension_total_case_insensitive_witness :
  (forall s, Text.all_chars Text.is_ascii s = true ->
     lower (plain_env (constant_model None) (Return "") no_fault) s =
     ascii_lower s)
  /\ get_file_extension (plain_env (constant_model None) (Return "") no_fault)
       "Python" = "py"
  /\ get_file_extension (plain_env (constant_model None) (Return "") no_fault)
       "TypeScript" = "ts"
  /\ get_file_extension (plain_env (constant_model None) (Return "") no_fault)
       "Elixir" = "txt".
Proof.
  split; [reflexivity |].
  pose proof (get_file_extension_total_case_insensitive
                (plain_env (constant_model None) (Return "") no_fault)
                (fun s _ => eq_refl)) as H.
  exact (conj (proj1 (proj2 (proj2 (proj2 H))))
           (conj (proj1 (proj2 (proj2 (proj2 (proj2 H)))))
              (proj1 (proj2 (proj2 (proj2 (proj2 (proj2 H)))))))).
Defined.
(** * Further properties of the program *)

(** ** What the stages return *)

Lemma failure_prefix_not_empty (s : stage) (e : string) :
  failure_prefix s ++ e <> "".
Proof. destruct s; discriminate. Qed.

Lemma truthy_not_empty (t : option string) :
  truthy t = true -> str_of t <> "".
Proof.
  destruct t as [s |]; [| discriminate].
  cbn [truthy str_of]. intros H Hs. subst s. discriminate H.
Qed.

Lemma stage_text_not_empty (E : env) (s : stage)
  (previous category : string) (input_data : dict) (w : world) :
  exists t,
    run_stage E s previous category input_data w =
    (Return t, record_prompt (stage_prompt E s previous category input_data) w)
    /\ t <> "".
Proof.
  eexists. split; [apply run_stage_outcome |]. cbv zeta.
  destruct (generate_content E (sent w)
              (stage_prompt E s previous category input_data))
    as [[r |] | e].
  - destruct (text r) as [t | e].
    + destruct (truthy t) eqn:Ht; [now apply truthy_not_empty | discriminate].
    + apply failure_prefix_not_empty.
  - discriminate.
  - apply failure_prefix_not_empty.
Qed.

(** X1: a stage runner never returns the empty text: whatever the model
    does (an answer, an empty or missing answer, an exception), the
    caller gets the answer, the no-response message or the error
    message, and exactly one prompt has been passed to the model. *)
Theorem stage_text_never_empty (E : env) (s : stage)
  (previous category : string) (input_data : dict) (w : world) :
  exists t,
    run_stage E s previous category input_data w =
    (Return t, record_prompt (stage_prompt E s previous category input_data) w)
    /\ t <> "".
Proof. apply stage_text_not_empty. Qed.

(** X2: none of the three fields of the result of [get_coding_advice]
    is ever empty. *)
Theorem result_fields_never_empty (E : env) (category : string)
  (input_data : dict) (w : world) :
  exists res w',
    VibeCodingTeam.get_coding_advice E category input_data w = (Return res, w')
    /\ Forall (fun field => snd field <> "") res.
Proof.
  destruct (get_coding_advice_run E category input_data w)
    as (t1 & t2 & t3 & H1 & H2 & H3 &
        [(r & w1 & entry & w' & _ & Hrun & _)
        | (e & w1 & w' & k & _ & _ & Hrun & _)]);
    eexists _, w'; (split; [exact Hrun |]).
  - pose (wa := record_prompt (stage_prompt E Explain "" category input_data) w).
    pose (wb := record_prompt (stage_prompt E Design t1 category input_data) wa).
    destruct (stage_text_not_empty E Explain "" category input_data w)
      as (u1 & Hu1 & Hn1).
    destruct (stage_text_not_empty E Design t1 category input_data wa)
      as (u2 & Hu2 & Hn2).
    destruct (stage_text_not_empty E Implement t2 category input_data wb)
      as (u3 & Hu3 & Hn3).
    cbv [run_stage] in Hu1, Hu2, Hu3.
    rewrite (H1 w eq_refl) in Hu1. rewrite (H2 wa eq_refl) in Hu2.
    rewrite H3 in Hu3
      by (cbn [wb wa sent record_prompt]; now rewrite <- app_assoc).
    injection Hu1 as ->. injection Hu2 as ->. injection Hu3 as ->.
    repeat (apply Forall_cons; [assumption |]). apply Forall_nil.
  - repeat (apply Forall_cons; [discriminate |]). apply Forall_nil.
Qed.

(** ** What a run displays and stores *)

Ltac trace_eq :=
  cbn [fst snd sent screen workflow_logs record_prompt display store_log];
  try match goal with
      | |- context [Nat.div ?j 2] =>
          let n := eval compute in (Nat.div j 2) in
          change (Nat.div j 2) with n
      end;
  rewrite ?length_app; cbn [Datatypes.length]; rewrite <- ?app_assoc;
  first [reflexivity | lia].

(** X3: a run shows the headings and spinners of the stages in the
    order of the program and calls the model once after each spinner it
    entered; when all six were shown, nothing else is displayed; when
    the clock or one of these calls raised, what was shown before is
    followed by one error banner that ends with the text of the
    exception, and the later stages are neither announced nor run. *)
Theorem run_displays_progress_in_order (E : env) (category : string)
  (input_data : dict) (w : world) :
  exists j,
    j <= 6
    /\ length (sent (snd (VibeCodingTeam.get_coding_advice E category input_data w))) =
       length (sent w) + Nat.div j 2
    /\ ((j = 6
         /\ (exists r w1,
               VibeCodingTeam.advice_steps E category input_data w =
               (Return r, w1))
         /\ screen (snd (VibeCodingTeam.get_coding_advice E category input_data w)) =
            (screen w ++ progress_events)%list)
        \/ (j < 6
            /\ exists e w1,
                 VibeCodingTeam.advice_steps E category input_data w =
                 (Raise e, w1)
                 /\ screen (snd (VibeCodingTeam.get_coding_advice E category
                                   input_data w)) =
                    (screen w ++ firstn j progress_events
                     ++ [Error (workflow_failure_prefix ++ e)])%list)).
Proof.
  destruct (run_stage_returns E Explain "" category input_data (sent w))
    as (t1 & H1).
  destruct (run_stage_returns E Design t1 category input_data
              (sent w ++ [stage_prompt E Explain "" category input_data]))
    as (t2 & H2).
  destruct (run_stage_returns E Implement t2 category input_data
              (sent w ++ [stage_prompt E Explain "" category input_data;
                          stage_prompt E Design t1 category input_data]))
    as (t3 & H3).
  cbv [run_stage] in H1, H2, H3.
  cbv [VibeCodingTeam.get_coding_advice VibeCodingTeam.advice_steps bind
       datetime_now st_markdown st_spinner try_except ret workflow_logs_append
       st_error].
  destruct (now E) as [ts | e].
  2: { exists 0. split; [lia |]. split; [trace_eq |].
       right. split; [lia |]. eexists _, _. split; [reflexivity | trace_eq]. }
  repeat
    match goal with
    | |- context [st_fault E ?ev] =>
        destruct (st_fault E ev) as [?e |] eqn:?
    end.
  all: try rewrite H1 by reflexivity.
  all: try rewrite H2 by reflexivity.
  all: try rewrite H3
         by (cbn [sent record_prompt display]; rewrite <- app_assoc; reflexivity).
  all: first
    [ exists 6; split; [lia |]; split; [trace_eq |];
      left; split; [reflexivity |]; split; [eexists _, _; reflexivity | trace_eq]
    | exists 0; split; [lia |]; split; [trace_eq |];
      right; split; [lia |]; eexists _, _; split; [reflexivity | trace_eq]
    | exists 1; split; [lia |]; split; [trace_eq |];
      right; split; [lia |]; eexists _, _; split; [reflexivity | trace_eq]
    | exists 2; split; [lia |]; split; [trace_eq |];
      right; split; [lia |]; eexists _, _; split; [reflexivity | trace_eq]
    | exists 3; split; [lia |]; split; [trace_eq |];
      right; split; [lia |]; eexists _, _; split; [reflexivity | trace_eq]
    | exists 4; split; [lia |]; split; [trace_eq |];
      right; split; [lia |]; eexists _, _; split; [reflexivity | trace_eq]
    | exists 5; split; [lia |]; split; [trace_eq |];
      right; split; [lia |]; eexists _, _; split; [reflexivity | trace_eq] ].
Qed.

(** X4: the entry a run stores.  When the body of the outer [try]
    returns, the clock gave a time stamp, and the log has one more
    entry: the category, that time stamp, the names of the three
    coaches, and for each coach in turn a step with its action and the
    status success, without an error detail.  No stored step has the
    status error. *)
Theorem stored_entry_records_three_successes (E : env) (category : string)
  (input_data : dict) (w : world) (r : dict) (w1 : world) :
  VibeCodingTeam.advice_steps E category input_data w = (Return r, w1) ->
  exists ts,
    now E = Return ts
    /\ VibeCodingTeam.get_coding_advice E category input_data w = (Return r, w1)
    /\ workflow_logs w1 =
       (workflow_logs w ++
        [{| service_type := category;
            timestamp := ts;
            coaches_involved :=
              ["ConceptCoach"; "PromptEngineeringCoach"; "ImplementationCoach"];
            steps :=
              [{| coach := "ConceptCoach";
                  action := "concept_explanation";
                  status := "success";
                  error := None |};
               {| coach := "PromptEngineeringCoach";
                  action := "prompt_design";
                  status := "success";
                  error := None |};
               {| coach := "ImplementationCoach";
                  action := "implementation";
                  status := "success";
                  error := None |}] |}])%list.
Proof.
  intros Hreturn.
  destruct (advice_steps_run E category input_data w)
    as (t1 & t2 & t3 & _ & _ & _ &
        [(ts & w' & Hnow & Hrun & _ & Hlogs)
        | (e & w' & k & _ & Hrun & _)]);
    rewrite Hrun in Hreturn; [| discriminate].
  injection Hreturn as <- <-.
  exists ts. split; [exact Hnow |]. split; [| exact Hlogs].
  cbv [VibeCodingTeam.get_coding_advice try_except]. now rewrite Hrun.
Qed.

Lemma stored_entry_records_three_successes_witness :
  exists r w1,
    VibeCodingTeam.advice_steps
      (plain_env (failing_model "quota") (Return "2025-01-01 00:00:00") no_fault)
      "프로젝트 설계" (project_input_data "a diary" "Flask" "" "" "")
      empty_world = (Return r, w1)
    /\ map (fun entry => (timestamp entry, map status (steps entry)))
         (workflow_logs w1) =
       [("2025-01-01 00:00:00", ["success"; "success"; "success"])].
Proof.
  pose (run := VibeCodingTeam.advice_steps
                 (plain_env (failing_model "quota")
                    (Return "2025-01-01 00:00:00") no_fault)
                 "프로젝트 설계" (project_input_data "a diary" "Flask" "" "" "")
                 empty_world).
  assert (H : run = (Return match fst run with
                            | Return r => r
                            | Raise _ => []
                            end, snd run))
    by (vm_compute; reflexivity).
  eexists _, (snd run). split; [exact H |].
  destruct (stored_entry_records_three_successes _ _ _ _ _ _ H)
    as (ts & Hnow & _ & Hlogs).
  rewrite Hlogs. injection Hnow as <-. reflexivity.
Defined.

(** X5: when the clock raises at the start of a run, no stage is
    announced or run and no prompt is passed to the model: the page
    gets the error banner with the text of the exception and nothing
    else, the log is untouched, and the caller gets the system-error
    result. *)
Theorem clock_failure_runs_no_stage (E : env) (category : string)
  (input_data : dict) (w : world) (e : string) :
  now E = Raise e ->
  VibeCodingTeam.get_coding_advice E category input_data w =
  (Return [("concept", VibeCodingTeam.system_error);
           ("prompt", VibeCodingTeam.system_error);
           ("implementation", VibeCodingTeam.system_error)],
   {| sent := sent w;
      screen := (screen w ++ [Error (workflow_failure_prefix ++ e)])%list;
      workflow_logs := workflow_logs w |}).
Proof.
  intros Hnow.
  cbv [VibeCodingTeam.get_coding_advice VibeCodingTeam.advice_steps bind
       datetime_now try_except].
  rewrite Hnow. reflexivity.
Qed.

Lemma clock_failure_runs_no_stage_witness :
  now (plain_env (constant_model (Some "answer")) (Raise "no clock") no_fault) =
  Raise "no clock"
  /\ VibeCodingTeam.get_coding_advice
       (plain_env (constant_model (Some "answer")) (Raise "no clock") no_fault)
       "개념 이해" (concept_input_data "What is it?" "beginner") empty_world =
     (Return [("concept", VibeCodingTeam.system_error);
              ("prompt", VibeCodingTeam.system_error);
              ("implementation", VibeCodingTeam.system_error)],
      {| sent := [];
         screen := [Error (workflow_failure_prefix ++ "no clock")];
         workflow_logs := [] |}).
Proof.
  split; [reflexivity |].
  exact (clock_failure_runs_no_stage
           (plain_env (constant_model (Some "answer")) (Raise "no clock") no_fault)
           "개념 이해" (concept_input_data "What is it?" "beginner") empty_world
           "no clock" eq_refl).
Defined.

(** X13: a progress call that raises stops the run where it is.  When
    the clock returned, the first [j] progress calls returned and the
    next one raised [e], the page shows those [j] headings and spinners
    followed by the error banner for [e], the model was called once for
    each spinner entered before (half of [j], rounded down), nothing is
    stored in the log, and the caller gets the system-error result. *)
Theorem failing_progress_call_stops_the_run (E : env) (category : string)
  (input_data : dict) (w : world) (ts : string) (j : nat) (ev : ui_event)
  (e : string) :
  now E = Return ts ->
  Forall (fun shown => st_fault E shown = None) (firstn j progress_events) ->
  nth_error progress_events j = Some ev ->
  st_fault E ev = Some e ->
  exists w',
    VibeCodingTeam.get_coding_advice E category input_data w =
    (Return [("concept", VibeCodingTeam.system_error);
             ("prompt", VibeCodingTeam.system_error);
             ("implementation", VibeCodingTeam.system_error)],
     w')
    /\ screen w' =
       (screen w ++ firstn j progress_events
        ++ [Error (workflow_failure_prefix ++ e)])%list
    /\ length (sent w') = length (sent w) + Nat.div j 2
    /\ workflow_logs w' = workflow_logs w.
Proof.
  intros Hnow Hshown Hnth Hfault.
  destruct (run_stage_returns E Explain "" category input_data (sent w))
    as (t1 & H1).
  destruct (run_stage_returns E Design t1 category input_data
              (sent w ++ [stage_prompt E Explain "" category input_data]))
    as (t2 & H2).
  cbv [run_stage] in H1, H2.
  cbv [VibeCodingTeam.get_coding_advice VibeCodingTeam.advice_steps bind
       datetime_now st_markdown st_spinner try_except ret workflow_logs_append
       st_error].
  rewrite Hnow.
  do 6 (destruct j as [| j];
        [cbn [nth_error progress_events] in Hnth; injection Hnth as <-;
         cbn [firstn progress_events] in Hshown;
         repeat match goal with
           | H : Forall _ (_ :: _) |- _ =>
               apply Forall_cons_iff in H; destruct H as [?Hok H]
           end;
         repeat match goal with
           | H : st_fault E _ = _ |- _ => rewrite H; clear H
           | |- context [ConceptCoach.explain E category input_data ?w0] =>
               rewrite (H1 w0) by reflexivity
           | |- context [PromptEngineeringCoach.design E t1 category
                           input_data ?w0] =>
               rewrite (H2 w0) by reflexivity
           end;
         eexists; split; [reflexivity |];
         split; [trace_eq |]; split; trace_eq |]).
  destruct j; discriminate Hnth.
Qed.

Lemma failing_progress_call_stops_the_run_witness :
  exists w',
    VibeCodingTeam.get_coding_advice
      (plain_env (constant_model (Some "answer")) (Return "2025-01-01 00:00:00")
         (fault_on_spinner "프롬프트 코치가 설계 중입니다..." "page closed"))
      "개념 이해" (concept_input_data "What is it?" "beginner") empty_world =
    (Return [("concept", VibeCodingTeam.system_error);
             ("prompt", VibeCodingTeam.system_error);
             ("implementation", VibeCodingTeam.system_error)],
     w')
    /\ screen w' =
       (screen empty_world ++ firstn 3 progress_events
        ++ [Error (workflow_failure_prefix ++ "page closed")])%list
    /\ length (sent w') = length (sent empty_world) + Nat.div 3 2
    /\ workflow_logs w' = workflow_logs empty_world.
Proof.
  refine (failing_progress_call_stops_the_run
            (plain_env (constant_model (Some "answer"))
               (Return "2025-01-01 00:00:00")
               (fault_on_spinner "프롬프트 코치가 설계 중입니다..." "page closed"))
            "개념 이해" (concept_input_data "What is it?" "beginner") empty_world
            "2025-01-01 00:00:00" 3
            (Spinner "프롬프트 코치가 설계 중입니다...") "page closed"
            eq_refl _ eq_refl eq_refl).
  repeat (apply Forall_cons; [reflexivity |]). apply Forall_nil.
Defined.

(** ** What the prompts hold *)

Lemma contains_trans (a b c : string) :
  Text.contains a b -> Text.contains b c -> Text.contains a c.
Proof.
  intros (p & q & ->) (p' & q' & ->).
  exists (p' ++ p), (q ++ q'). now rewrite !append_assoc.
Qed.

Lemma contains_join (sep x : string) (parts : list string) :
  In x parts -> Text.contains x (Text.join sep parts).
Proof.
  induction parts as [| p rest IH]; [contradiction |].
  intros [-> | Hin].
  - destruct rest; cbn [Text.join]; [apply contains_refl |].
    exists "", (sep ++ Text.join sep (s :: rest)). reflexivity.
  - destruct rest as [| p' rest']; [contradiction |].
    change (Text.join sep (p :: p' :: rest'))
      with (p ++ sep ++ Text.join sep (p' :: rest')).
    auto with text.
Qed.

(** The prompt of a stage holds the template the stage selected. *)
Lemma prompt_contains_template (E : env) (s : stage)
  (previous category : string) (input_data : dict) :
  Text.contains (stage_template E s previous category input_data)
    (stage_prompt E s previous category input_data).
Proof.
  destruct s;
    cbv [stage_prompt stage_template ConceptCoach.explain_prompt
         PromptEngineeringCoach.design_prompt
         ImplementationCoach.implement_prompt];
    cbv zeta; auto 10 with text.
Qed.

(** The templates of the four known categories. *)
Lemma known_templates (E : env) (s : stage) (previous : string)
  (input_data : dict) :
  stage_template E s previous "개념 이해" input_data =
  match s with
  | Explain => ConceptCoach._create_concept_prompt input_data
  | Design =>
      PromptEngineeringCoach._create_concept_prompt_design previous input_data
  | Implement =>
      ImplementationCoach._create_concept_implementation previous input_data
  end
  /\ stage_template E s previous "프로젝트 설계" input_data =
     match s with
     | Explain => ConceptCoach._create_project_concept_prompt input_data
     | Design =>
         PromptEngineeringCoach._create_project_prompt_design previous input_data
     | Implement =>
         ImplementationCoach._create_project_implementation previous input_data
     end
  /\ stage_template E s previous "코드 생성" input_data =
     match s with
     | Explain => ConceptCoach._create_code_concept_prompt input_data
     | Design =>
         PromptEngineeringCoach._create_code_prompt_design previous input_data
     | Implement =>
         ImplementationCoach._create_code_implementation previous input_data
     end
  /\ stage_template E s previous "학습 계획" input_data =
     match s with
     | Explain => ConceptCoach._create_learning_concept_prompt input_data
     | Design =>
         PromptEngineeringCoach._create_learning_prompt_design previous input_data
     | Implement =>
         ImplementationCoach._create_learning_implementation previous input_data
     end.
Proof. destruct s; repeat split. Qed.

Lemma known_category_cases (category : string) :
  In category known_categories ->
  category = "개념 이해" \/ category = "코드 생성"
  \/ category = "프로젝트 설계" \/ category = "학습 계획".
Proof. cbn [In known_categories]. intuition auto. Qed.

Ltac unfold_templates :=
  cbv [ConceptCoach._create_concept_prompt
       ConceptCoach._create_project_concept_prompt
       ConceptCoach._create_code_concept_prompt
       ConceptCoach._create_learning_concept_prompt
       PromptEngineeringCoach._create_concept_prompt_design
       PromptEngineeringCoach._create_project_prompt_design
       PromptEngineeringCoach._create_code_prompt_design
       PromptEngineeringCoach._create_learning_prompt_design
       ImplementationCoach._create_concept_implementation
       ImplementationCoach._create_project_implementation
       ImplementationCoach._create_code_implementation
       ImplementationCoach._create_learning_implementation].

(** The template of a known category holds the value of each field the
    category reads. *)
Lemma template_contains_field (E : env) (s : stage)
  (previous category : string) (input_data : dict) (key : string) :
  In category known_categories ->
  In key (category_fields category) ->
  Text.contains (get input_data key "")
    (stage_template E s previous category input_data).
Proof.
  intros Hcat Hkey.
  destruct (known_templates E s previous input_data) as (T1 & T2 & T3 & T4).
  destruct (known_category_cases category Hcat) as [-> | [-> | [-> | ->]]];
    vm_compute in Hkey;
    repeat match type of Hkey with
      | _ \/ _ => destruct Hkey as [<- | Hkey]
      | False => contradiction
      end;
    rewrite ?T1, ?T2, ?T3, ?T4; destruct s; unfold_templates;
    auto 10 with text.
Qed.

Lemma prompt_contains_field (E : env) (s : stage)
  (previous category : string) (input_data : dict) (key : string) :
  In category known_categories ->
  In key (category_fields category) ->
  Text.contains (get input_data key "")
    (stage_prompt E s previous category input_data).
Proof.
  intros Hcat Hkey.
  apply contains_trans
    with (stage_template E s previous category input_data);
    [now apply template_contains_field | apply prompt_contains_template].
Qed.

(** X7: what the user typed reaches the model in every stage.  For the
    request [main] builds for a service, each of the three prompts
    holds, as it was typed, the question (concept service), the code
    request and the language (code service), the project description and
    the technology stack (project service), the current level and the
    learning goals (learning service). *)
Theorem typed_fields_reach_every_prompt (E : env) (s : stage)
  (previous : string) :
  (forall question experience_level,
     Text.contains question
       (stage_prompt E s previous "개념 이해"
          (concept_input_data question experience_level)))
  /\ (forall code_request programming_language complexity specifics,
        Text.contains code_request
          (stage_prompt E s previous "코드 생성"
             (code_input_data code_request programming_language complexity
                specifics))
        /\ Text.contains programming_language
             (stage_prompt E s previous "코드 생성"
                (code_input_data code_request programming_language complexity
                   specifics)))
  /\ (forall project_description tech_stack project_scale development_time
        project_constraints,
        Text.contains project_description
          (stage_prompt E s previous "프로젝트 설계"
             (project_input_data project_description tech_stack project_scale
                development_time project_constraints))
        /\ Text.contains tech_stack
             (stage_prompt E s previous "프로젝트 설계"
                (project_input_data project_description tech_stack
                   project_scale development_time project_constraints)))
  /\ (forall current_level coding_experience learning_goals
        preferred_languages learning_time learning_style,
        Text.contains current_level
          (stage_prompt E s previous "학습 계획"
             (learning_input_data current_level coding_experience
                learning_goals preferred_languages learning_time
                learning_style))
        /\ Text.contains learning_goals
             (stage_prompt E s previous "학습 계획"
                (learning_input_data current_level coding_experience
                   learning_goals preferred_languages learning_time
                   learning_style))).
Proof.
  split; [| split; [| split]].
  - intros question experience_level.
    apply (prompt_contains_field E s previous "개념 이해"
             (concept_input_data question experience_level) "question");
      cbn; auto.
  - intros code_request programming_language complexity specifics. split.
    + apply (prompt_contains_field E s previous "코드 생성"
               (code_input_data code_request programming_language complexity
                  specifics) "code_request"); cbn; auto.
    + apply (prompt_contains_field E s previous "코드 생성"
               (code_input_data code_request programming_language complexity
                  specifics) "programming_language"); cbn; auto.
  - intros project_description tech_stack project_scale development_time
      project_constraints. split.
    + apply (prompt_contains_field E s previous "프로젝트 설계"
               (project_input_data project_description tech_stack
                  project_scale development_time project_constraints)
               "project_description"); cbn; auto.
    + apply (prompt_contains_field E s previous "프로젝트 설계"
               (project_input_data project_description tech_stack
                  project_scale development_time project_constraints)
               "tech_stack"); cbn; auto.
  - intros current_level coding_experience learning_goals preferred_languages
      learning_time learning_style. split.
    + apply (prompt_contains_field E s previous "학습 계획"
               (learning_input_data current_level coding_experience
                  learning_goals preferred_languages learning_time
                  learning_style) "current_level"); cbn; auto.
    + apply (prompt_contains_field E s previous "학습 계획"
               (learning_input_data current_level coding_experience
                  learning_goals preferred_languages learning_time
                  learning_style) "learning_goals"); cbn; auto.
Qed.

Lemma template_reads_only_its_fields (E : env) (s : stage)
  (previous category : string) (d d' : dict) :
  In category known_categories ->
  (forall key, In key (category_fields category) ->
     get d key "" = get d' key "") ->
  stage_template E s previous category d =
  stage_template E s previous category d'.
Proof.
  intros Hcat Hsame.
  destruct (known_templates E s previous d) as (T1 & T2 & T3 & T4).
  destruct (known_templates E s previous d') as (T1' & T2' & T3' & T4').
  destruct (known_category_cases category Hcat) as [-> | [-> | [-> | ->]]];
    rewrite ?T1, ?T2, ?T3, ?T4, ?T1', ?T2', ?T3', ?T4';
    destruct s; unfold_templates;
    repeat match goal with
      | |- context [get d ?key ""] =>
          rewrite (Hsame key) by (vm_compute; tauto)
      end;
    reflexivity.
Qed.

(** X8: the prompts of a known category depend on the request only
    through the fields the category's templates read (question; code
    request and language; project description and technology stack;
    current level and learning goals).  Two requests that agree on these
    fields give the same prompt in every stage, so the other values
    [main] collects (experience level, complexity, further requirements,
    project scale, ...) never reach the model. *)
Theorem prompts_ignore_unread_fields (E : env) (s : stage)
  (previous category : string) (d d' : dict) :
  In category known_categories ->
  (forall key, In key (category_fields category) ->
     get d key "" = get d' key "") ->
  stage_prompt E s previous category d = stage_prompt E s previous category d'.
Proof.
  intros Hcat Hsame.
  pose proof (template_reads_only_its_fields E s previous category d d'
                Hcat Hsame) as Ht.
  destruct s;
    cbv [stage_prompt stage_template ConceptCoach.explain_prompt
         PromptEngineeringCoach.design_prompt
         ImplementationCoach.implement_prompt] in *;
    cbv zeta; now rewrite Ht.
Qed.

Lemma prompts_ignore_unread_fields_witness :
  In "코드 생성" known_categories
  /\ (forall key, In key (category_fields "코드 생성") ->
        get (code_input_data "sort a list" "Python" "simple" "") key "" =
        get (code_input_data "sort a list" "Python" "complex" "use classes")
          key "")
  /\ stage_prompt (plain_env (constant_model None) (Return "") no_fault)
       Implement "design notes" "코드 생성"
       (code_input_data "sort a list" "Python" "simple" "") =
     stage_prompt (plain_env (constant_model None) (Return "") no_fault)
       Implement "design notes" "코드 생성"
       (code_input_data "sort a list" "Python" "complex" "use classes").
Proof.
  assert (Hcat : In "코드 생성" known_categories) by (cbn; tauto).
  assert (Hsame : forall key, In key (category_fields "코드 생성") ->
            get (code_input_data "sort a list" "Python" "simple" "") key "" =
            get (code_input_data "sort a list" "Python" "complex" "use classes")
              key "").
  { intros key Hkey. vm_compute in Hkey.
    destruct Hkey as [<- | [<- | []]]; reflexivity. }
  split; [exact Hcat |]. split; [exact Hsame |].
  exact (prompts_ignore_unread_fields
           (plain_env (constant_model None) (Return "") no_fault)
           Implement "design notes" "코드 생성" _ _ Hcat Hsame).
Defined.

(** X9: for a category that is none of the four, every field of the
    request reaches the model in every stage: each prompt holds the
    [repr] of the key, a colon and the [repr] of the value. *)
Theorem unknown_category_sends_every_field (E : env) (s : stage)
  (previous category : string) (input_data : dict) (key value : string) :
  ~ In category known_categories ->
  In (key, value) input_data ->
  Text.contains (repr E key ++ ": " ++ repr E value)
    (stage_prompt E s previous category input_data).
Proof.
  intros Hcat Hin.
  destruct (unknown_category category Hcat) as (H1 & H2 & H3 & H4).
  apply contains_trans with (str_dict E input_data).
  - unfold str_dict.
    apply contains_app_r, contains_app_l, contains_join.
    change (repr E key ++ ": " ++ repr E value)
      with ((fun kv => repr E (fst kv) ++ ": " ++ repr E (snd kv)) (key, value)).
    now apply in_map.
  - apply contains_trans with (stage_template E s previous category input_data);
      [| apply prompt_contains_template].
    destruct s;
      cbv [stage_template ConceptCoach.category_prompt
           PromptEngineeringCoach.category_prompt
           ImplementationCoach.category_prompt];
      rewrite H1, H2, H3, H4;
      cbv [ConceptCoach._create_general_concept_prompt
           PromptEngineeringCoach._create_general_prompt_design
           ImplementationCoach._create_general_implementation];
      auto 6 with text.
Qed.

Lemma unknown_category_sends_every_field_witness :
  ~ In "review" known_categories
  /\ In ("file", "app.py") [("file", "app.py"); ("depth", "full")]
  /\ Text.contains ("'file'" ++ ": " ++ "'app.py'")
       (stage_prompt (plain_env (constant_model None) (Return "") no_fault)
          Design "earlier" "review" [("file", "app.py"); ("depth", "full")]).
Proof.
  assert (Hcat : ~ In "review" known_categories)
    by (cbn; intuition discriminate).
  assert (Hin : In ("file", "app.py") [("file", "app.py"); ("depth", "full")])
    by (left; reflexivity).
  split; [exact Hcat |]. split; [exact Hin |].
  exact (unknown_category_sends_every_field
           (plain_env (constant_model None) (Return "") no_fault)
           Design "earlier" "review" _ "file" "app.py" Hcat Hin).
Defined.

(** The template a later stage selects does not look at the text it was
    handed. *)
Lemma later_templates_ignore_previous (E : env) (previous category : string)
  (input_data : dict) :
  PromptEngineeringCoach.category_prompt E previous category input_data =
  PromptEngineeringCoach.category_prompt E "" category input_data
  /\ ImplementationCoach.category_prompt E previous category input_data =
     ImplementationCoach.category_prompt E "" category input_data.
Proof.
  cbv [PromptEngineeringCoach.category_prompt
       ImplementationCoach.category_prompt].
  destruct (category =? "개념 이해"); [split; reflexivity |].
  destruct (category =? "프로젝트 설계"); [split; reflexivity |].
  destruct (category =? "코드 생성"); [split; reflexivity |].
  destruct (category =? "학습 계획"); split; reflexivity.
Qed.

(** X6: how a later stage is given the text of the stage before it.
    The design prompt is a fixed text, the line
    [=== 개념 코치의 설명 ===], the text explain returned on a line of
    its own, the line [=== 설명 끝 ===], and a fixed text; the implement
    prompt frames the text design returned in the same way, between
    [=== 이전 코치들의 분석 ===] and [=== 분석 끝 ===].  Nothing else
    in the prompt depends on the text handed over. *)
Theorem previous_text_is_framed (E : env) (category : string)
  (input_data : dict) :
  (exists head tail, forall previous,
     PromptEngineeringCoach.design_prompt E previous category input_data =
     head ++ "=== 개념 코치의 설명 ===
        " ++ previous ++ "
        === 설명 끝 ===" ++ tail)
  /\ (exists head tail, forall previous,
        ImplementationCoach.implement_prompt E previous category input_data =
        head ++ "=== 이전 코치들의 분석 ===
        " ++ previous ++ "
        === 분석 끝 ===" ++ tail).
Proof.
  split.
  - exists ("
        당신은 '" ++ PromptEngineeringCoach.coach_name ++ "'이라는 프롬프트 엔지니어링 전문 코치입니다.
        "
            ++ PromptEngineeringCoach.coach_intro ++ "
        
        바이브 코딩 개념 코치가 제공한 다음 설명을 검토하고, 프롬프트 설계 관점에서 보완해주세요:
        
        "),
      ("
        
        " ++ PromptEngineeringCoach.category_prompt E "" category input_data
       ++ "
        
        효과적인 프롬프트 구조와 패턴, 구체적인 예시, 최적화 전략을 반드시 포함해 주세요.
        
        응답 형식:
        - 실용적인 프롬프트 템플릿과 예시
        - 단계별 프롬프트 작성 가이드
        - 일반적인 실수와 개선 방법
        - 마크다운 형식으로 코드 블록과 예시 포함
        ").
    intros previous.
    cbv [PromptEngineeringCoach.design_prompt]. cbv zeta.
    rewrite (proj1 (later_templates_ignore_previous E previous category
                      input_data)).
    reflexivity.
  - exists ("
        당신은 '" ++ ImplementationCoach.coach_name ++ "'이라는 코드 구현 전문 코치입니다.
        "
            ++ ImplementationCoach.coach_intro ++ "
        
        개념 코치와 프롬프트 코치가 제공한, 다음 분석을 검토하고 최종적으로 코드 구현을 완성해주세요:
        
        "),
      ("
        
        " ++ ImplementationCoach.category_prompt E "" category input_data
       ++ "
        
        최종 결과에는 다음 세 코치의 관점이 균형있게 통합되어야 합니다:
        1. 개념 코치 (바이브 코딩의 기본 개념 및 원리)
        2. 프롬프트 코치 (효과적인 프롬프트 설계 및 패턴)
        3. 구현 코치 (실제 코드 구현 및 최적화)
        
        실행 가능하고 최적화된 코드, 사용 방법, 주의 사항을 포함한 종합적인 구현 가이드를 제공해주세요.
        코드는 Markdown 형식으로 ```python (또는 해당 언어) 코드 블록 안에 포함해주세요.
        필요한 경우 코드 블록 외부에 설명을 추가해주세요.
        
        응답 형식:
        - 완전한 실행 가능한 코드 제공
        - 코드 설명과 사용법 포함
        - 성능 최적화 팁과 주의사항
        - 마크다운 형식으로 구조화된 가이드
        ").
    intros previous.
    cbv [ImplementationCoach.implement_prompt]. cbv zeta.
    rewrite (proj2 (later_templates_ignore_previous E previous category
                      input_data)).
    reflexivity.
Qed.

(** ** What the extraction yields on any text *)

Lemma whole_text_not_empty (c : string) (cs : list string) :
  whole_char c = true -> Unicode.text (c :: cs) <> "".
Proof. destruct c; [discriminate |]. intros _. discriminate. Qed.

Lemma findall_from_sound (isalnum : string -> bool) (fuel : nat)
  (input : list string) :
  Forall (fun t => whole_char t = true) (tl input) ->
  exists prose blocks,
    Unicode.text input = render_text prose blocks
    /\ map Unicode.text (Re.findall_from fuel (code_pattern isalnum) input) =
       bodies blocks
    /\ Forall (found_block isalnum) blocks.
Proof.
  revert input. induction fuel as [| fuel IH]; intros input Hwhole.
  - exists (Unicode.text input), []. unfold render_text. cbn [render_blocks].
    rewrite append_nil_r. repeat split. constructor.
  - cbn [Re.findall_from].
    destruct (Re.match_here (code_pattern isalnum) input) as [[g rest] |]
      eqn:Hmatch.
    + destruct (match_here_sound isalnum input g rest Hmatch)
        as (tagchars & -> & Hword & Hg).
      cbn [Unicode.chars fence Text.nl app tl append Unicode.is_continuation]
        in Hwhole.
      apply Forall_inv_tail, Forall_inv_tail in Hwhole.
      apply Forall_app in Hwhole as [Htag Hwhole].
      apply Forall_inv_tail in Hwhole.
      apply Forall_app in Hwhole as [Hbody Hwhole].
      do 4 apply Forall_inv_tail in Hwhole.
      assert (Hlt : Nat.ltb (length rest)
                      (length
                         (Unicode.chars fence ++ tagchars
                          ++ Unicode.chars Text.nl ++ g
                          ++ Unicode.chars (Text.nl ++ fence) ++ rest))
                    = true).
      { apply Nat.ltb_lt. rewrite !length_app. cbn. lia. }
      rewrite Hlt.
      destruct (IH rest) as (prose & blocks & Htext & Hfound & Hall).
      { destruct rest; [constructor | now apply Forall_inv_tail in Hwhole]. }
      exists "",
        (({| tag := Unicode.text tagchars; body := Unicode.text g |}, prose)
         :: blocks).
      split; [| split].
      * unfold render_text. cbn [render_blocks append]. unfold render_block.
        cbn [tag body].
        rewrite !text_app, Htext. unfold render_text.
        rewrite !text_chars, !append_assoc. reflexivity.
      * cbn [map bodies fst body]. now rewrite Hfound.
      * constructor; [| exact Hall]. split; cbn [fst tag body].
        -- now rewrite chars_text.
        -- destruct g as [| c g]; [congruence |].
           apply whole_text_not_empty. now inversion Hbody.
    + destruct input as [| c input].
      * exists "", []. repeat split. constructor.
      * destruct (IH input) as (prose & blocks & Htext & Hfound & Hall).
        { cbn [tl] in Hwhole.
          destruct input; [constructor | now apply Forall_inv_tail in Hwhole]. }
        exists (c ++ prose), blocks.
        split; [| split; assumption].
        cbn [Unicode.text]. rewrite Htext. unfold render_text.
        now rewrite append_assoc.
Qed.

Lemma code_matches_sound (isalnum : string -> bool) (s : string) :
  exists prose blocks,
    s = render_text prose blocks
    /\ code_matches isalnum s = bodies blocks
    /\ Forall (found_block isalnum) blocks.
Proof.
  destruct (findall_from_sound isalnum (S (length (Unicode.chars s)))
              (Unicode.chars s) (chars_whole_tail s))
    as (prose & blocks & Htext & Hfound & Hall).
  rewrite text_chars in Htext.
  exists prose, blocks. repeat split; assumption.
Qed.

(** X10: what the extraction finds in any text.  Every text splits into
    prose and fenced blocks (an opening line of three backticks and a
    tag of word characters or none, a body that is not empty, a closing
    line of three backticks), each block followed by prose, such that
    the matches are exactly the bodies of these blocks, in their order:
    every piece that is extracted stood between an opening and a
    closing line of the text, and the pieces do not overlap.  Word
    characters are those of [\w], whatever Unicode counts as a letter or
    digit outside ASCII. *)
Theorem matches_are_bodies_of_blocks_of_the_text (isalnum : string -> bool)
  (s : string) :
  exists prose blocks,
    s = render_text prose blocks
    /\ code_matches isalnum s = bodies blocks
    /\ Forall (found_block isalnum) blocks.
Proof. apply code_matches_sound. Qed.

Lemma block_contains_body (b : fenced_block) :
  Text.contains (body b) (render_block b).
Proof. unfold render_block. auto 6 with text. Qed.

Lemma blocks_contain_body (blocks : list (fenced_block * string))
  (bp : fenced_block * string) :
  In bp blocks -> Text.contains (body (fst bp)) (render_blocks blocks).
Proof.
  induction blocks as [| [b prose] blocks IH]; [contradiction |].
  cbn [render_blocks]. intros [<- | Hin].
  - apply contains_app_l, block_contains_body.
  - auto with text.
Qed.

Lemma join_not_empty (sep g : string) (rest : list string) :
  g <> "" -> Text.join sep (g :: rest) <> "".
Proof.
  intros Hg. destruct g as [| c g]; [congruence |].
  destruct rest; discriminate.
Qed.

(** X11: when [main] offers a download, its content is not empty, and
    every piece that was extracted is not empty, occurs in the text of
    the implementation stage, and occurs in the download. *)
Theorem download_is_made_of_text_pieces (isalnum : string -> bool)
  (implementation_content code : string) :
  combined_code isalnum implementation_content = Some code ->
  code <> ""
  /\ code = Text.join (Text.nl ++ Text.nl)
             (code_matches isalnum implementation_content)
  /\ Forall (fun piece =>
               piece <> ""
               /\ Text.contains piece implementation_content
               /\ Text.contains piece code)
       (code_matches isalnum implementation_content).
Proof.
  unfold combined_code.
  destruct (code_matches_sound isalnum implementation_content)
    as (prose & blocks & Htext & Hfound & Hall).
  assert (Hpieces : Forall (fun piece =>
                              piece <> ""
                              /\ Text.contains piece implementation_content)
                      (code_matches isalnum implementation_content)).
  { rewrite Hfound. unfold bodies. rewrite Forall_map.
    rewrite Forall_forall in *.
    intros bp Hin. split; [apply (Hall bp Hin) |].
    rewrite Htext. unfold render_text.
    now apply contains_app_r, blocks_contain_body. }
  destruct (code_matches isalnum implementation_content) as [| g rest];
    [discriminate |].
  intros Hcode.
  assert (Hjoin : code = Text.join (Text.nl ++ Text.nl) (g :: rest))
    by congruence.
  subst code. clear Hcode.
  split; [| split; [reflexivity |]].
  - apply join_not_empty. now inversion Hpieces as [| ? ? [Hg _] _].
  - rewrite Forall_forall in *. intros piece Hin.
    destruct (Hpieces piece Hin) as (Hne & Hin_text).
    repeat split; [assumption | assumption | now apply contains_join].
Qed.

Lemma download_is_made_of_text_pieces_witness :
  combined_code all_alnum
    ("```한" ++ Text.nl ++ "A" ++ Text.nl ++ "```" ++ Text.nl ++ "B"
     ++ Text.nl ++ "```") = Some "A"
  /\ "A" <> ""
  /\ Forall (fun piece =>
               piece <> ""
               /\ Text.contains piece
                    ("```한" ++ Text.nl ++ "A" ++ Text.nl ++ "```" ++ Text.nl
                     ++ "B" ++ Text.nl ++ "```")
               /\ Text.contains piece "A")
       (code_matches all_alnum
          ("```한" ++ Text.nl ++ "A" ++ Text.nl ++ "```" ++ Text.nl ++ "B"
           ++ Text.nl ++ "```")).
Proof.
  assert (H : combined_code all_alnum
                ("```한" ++ Text.nl ++ "A" ++ Text.nl ++ "```" ++ Text.nl
                 ++ "B" ++ Text.nl ++ "```") = Some "A")
    by reflexivity.
  split; [exact H |].
  pose proof (download_is_made_of_text_pieces all_alnum _ _ H) as T.
  exact (conj (proj1 T) (proj2 (proj2 T))).
Defined.

(** ** The name of the download *)

(** X12: every language the selector of [main] offers, apart from the
    entry that opens the free text field, is a key of the table once
    lowered, so the file offered for it is named after the language and
    carries the extension of the table, never the default one. *)
Theorem offered_languages_have_their_extension (E : env) :
  (forall s, Text.all_chars Text.is_ascii s = true ->
     lower E s = ascii_lower s) ->
  Forall (fun language =>
            language = "기타"
            \/ exists extension,
                 In (ascii_lower language, extension) extensions
                 /\ filename E language =
                    "vibe_coding_" ++ ascii_lower language ++ "_code."
                    ++ extension)
    programming_languages.
Proof.
  intros Hlower. unfold programming_languages.
  repeat (apply Forall_cons;
          [first
             [ left; reflexivity
             | right; eexists; split;
               [ cbn [In extensions ascii_lower];
                 repeat first [left; reflexivity | right]
               | unfold filename, get_file_extension;
                 rewrite Hlower by reflexivity; reflexivity ] ] |]).
  apply Forall_nil.
Qed.

Lemma offered_languages_have_their_extension_witness :
  (forall s, Text.all_chars Text.is_ascii s = true ->
     lower (plain_env (constant_model None) (Return "") no_fault) s =
     ascii_lower s)
  /\ Forall (fun language =>
               language = "기타"
               \/ exists extension,
                    In (ascii_lower language, extension) extensions
                    /\ filename
                         (plain_env (constant_model None) (Return "") no_fault)
                         language =
                       "vibe_coding_" ++ ascii_lower language ++ "_code."
                       ++ extension)
       programming_languages.
Proof.
  split; [reflexivity |].
  exact (offered_languages_have_their_extension
           (plain_env (constant_model None) (Return "") no_fault)
           (fun s _ => eq_refl)).
Defined.
